(** * Dan Launcher: launch resolution, recent versions and settings persistence

    A shallow embedding of the parts of [launcher.py] that decide how a
    launch request is validated, which installed version is started, which
    options are handed to [minecraft_launcher_lib], and how the settings
    dictionary is saved, imported and exported.

    Conventions of the embedding.
    - A Python [str] is a [string] whose characters are read as code points
      below 256; [isspace], [isdigit] and [lower] are Python's restricted to
      that range.
    - Every value that comes out of [json.load] or is stored in a Python
      dictionary is a [Json]; integers are [Z], floats are not represented.
    - [self.settings] and the [options] dictionary are [gmap string Json];
      nested dictionaries keep their insertion order in an association list.
    - Tk variables are fields holding what their [get()] returns; a widget
      attribute that the code tests with [hasattr] is an [option].
    - Message boxes, the status line and the log widget are not state of the
      model; the path taken is reported as an [Outcome].
    - The worker thread started by [launch_minecraft] is run to completion
      right after [save_settings_ui]. *)

From Stdlib Require Import ZArith Lia List Ascii String DecimalString.
From stdpp Require Import base option list strings gmap fin_maps sorting.

Open Scope string_scope.
Open Scope list_scope.
Open Scope Z_scope.

(** ** Python strings *)

Module PyStr.

(** [ch.isspace()] for a code point below 256. *)
Definition isspace (c : ascii) : bool :=
  let n := N_of_ascii c in
  ((9 <=? n) && (n <=? 13) || (28 <=? n) && (n <=? 32)
   || (n =? 133) || (n =? 160))%N.

(** [ch.isdigit()] for a code point below 256: the ASCII digits and the
    superscripts one, two and three. *)
Definition isdigit (c : ascii) : bool :=
  let n := N_of_ascii c in
  ((48 <=? n) && (n <=? 57) || (n =? 178) || (n =? 179) || (n =? 185))%N.

(** [ch.lower()] for a code point below 256. *)
Definition lower_char (c : ascii) : ascii :=
  let n := N_of_ascii c in
  if ((65 <=? n) && (n <=? 90)
      || (192 <=? n) && (n <=? 222) && negb (n =? 215))%N
  then ascii_of_N (n + 32) else c.

Fixpoint lower (s : string) : string :=
  match s with
  | EmptyString => EmptyString
  | String c r => String (lower_char c) (lower r)
  end.

(** [any(char.isdigit() for char in s)] *)
Fixpoint any_digit (s : string) : bool :=
  match s with
  | EmptyString => false
  | String c r => isdigit c || any_digit r
  end.

Definition nonempty (s : string) : bool :=
  match s with EmptyString => false | String _ _ => true end.

Fixpoint lstrip (s : string) : string :=
  match s with
  | EmptyString => EmptyString
  | String c r => if isspace c then lstrip r else s
  end.

Fixpoint rstrip (s : string) : string :=
  match s with
  | EmptyString => EmptyString
  | String c r =>
      let r' := rstrip r in
      if isspace c && negb (nonempty r') then EmptyString else String c r'
  end.

(** [s.strip()] *)
Definition strip (s : string) : string := lstrip (rstrip s).

Definition newline : ascii := ascii_of_N 10.

(** [s.split('\n')]: never empty, one more piece than there are newlines. *)
Fixpoint split_lines (s : string) : list string :=
  match s with
  | EmptyString => [EmptyString]
  | String c r =>
      if Ascii.eqb c newline then EmptyString :: split_lines r
      else match split_lines r with
           | h :: t => String c h :: t
           | [] => [String c EmptyString]
           end
  end.

(** [str(n)] and the [{n}] of an f-string, for an integer. *)
Definition of_Z (n : Z) : string := NilZero.string_of_int (Z.to_int n).

End PyStr.

(** ** Python values *)

(** What [json.load] produces, and what the launcher stores in its
    dictionaries.  A nested dictionary keeps its insertion order. *)
#[warnings="-register-all"] Inductive Json : Type :=
  | JNull
  | JBool (b : bool)
  | JInt (n : Z)
  | JStr (s : string)
  | JArr (items : list Json)
  | JObj (entries : list (string * Json)).

(** Truth value of a Python object, as tested by [if x:]. *)
Definition truthy (v : Json) : bool :=
  match v with
  | JNull => false
  | JBool b => b
  | JInt n => negb (n =? 0)
  | JStr s => PyStr.nonempty s
  | JArr items => match items with [] => false | _ => true end
  | JObj entries => match entries with [] => false | _ => true end
  end.

(** Result of a block of Python code: a value, an exception that the
    enclosing [try] of [launch] catches, or [Unmodelled] when the block
    reaches an operation this embedding does not define ([str] of a list or
    dictionary, a statistics object of another shape than the launcher
    writes).  [Unmodelled] is a limit of the model, not a behaviour. *)
Inductive Py (A : Type) : Type :=
  | Ret (a : A)
  | Raise
  | Unmodelled.
Arguments Ret {A} a.
Arguments Raise {A}.
Arguments Unmodelled {A}.

#[global] Instance Py_ret : MRet Py := λ A a, Ret a.
#[global] Instance Py_bind : MBind Py := λ A B f m,
  match m with
  | Ret a => f a
  | Raise => Raise
  | Unmodelled => Unmodelled
  end.

(** [str(v)]; the [repr] of containers is not modelled. *)
Definition py_str (v : Json) : Py string :=
  match v with
  | JNull => Ret "None"
  | JBool true => Ret "True"
  | JBool false => Ret "False"
  | JInt n => Ret (PyStr.of_Z n)
  | JStr s => Ret s
  | JArr _ | JObj _ => Unmodelled
  end.

(** Dictionaries in insertion order; the keys of a list that stands for a
    dictionary are distinct. *)
Module Dict.

Fixpoint get (k : string) (d : list (string * Json)) : option Json :=
  match d with
  | [] => None
  | (k', v) :: r => if String.eqb k k' then Some v else get k r
  end.

(** [d[k] = v]: an existing key keeps its place, a new one goes last. *)
Fixpoint set (k : string) (v : Json) (d : list (string * Json))
  : list (string * Json) :=
  match d with
  | [] => [(k, v)]
  | (k', v') :: r =>
      if String.eqb k k' then (k', v) :: r else (k', v') :: set k v r
  end.

(** [max(d, key=d.get)] for integer values: the first key, in insertion
    order, whose value is maximal. *)
Fixpoint max_from (best : string) (bestv : Z) (d : list (string * Z)) : string :=
  match d with
  | [] => best
  | (k, v) :: r => if bestv <? v then max_from k v r else max_from best bestv r
  end.

Definition max_key (d : list (string * Z)) : option string :=
  match d with
  | [] => None
  | (k, v) :: r => Some (max_from k v r)
  end.

(** The integer values of a dictionary, when all its values are integers. *)
Fixpoint int_values (d : list (string * Json)) : option (list (string * Z)) :=
  match d with
  | [] => Some []
  | (k, JInt n) :: r => cons (k, n) <$> int_values r
  | _ => None
  end.

End Dict.

(** ** The launcher object *)

(** The attributes of [self] that mirror the settings file.  Each holds
    whatever was last assigned to it: a widget's value, a value read from the
    settings dictionary, or a default. *)
Record Prefs : Type := mkPrefs {
  selected_version : Json;
  selected_mod_loader : Json;
  java_path : Json;
  allocated_ram : Json;
  username : Json;
  window_width : Json;
  window_height : Json;
  fullscreen : Json;
  custom_jvm_args : Json;
  server_ip : Json;
  server_port : Json;
  theme : Json
}.

(** The Tk variables and widgets read by the modelled methods; a field holds
    what [get()] returns ([jvm_text_widget] what [get("1.0", tk.END)]
    returns).  The six attributes that [launch] tests with [hasattr] are
    optional. *)
Record Widgets : Type := mkWidgets {
  version_var : string;
  mod_loader_var : string;
  username_var : string;
  java_path_var : string;
  ram_var : Z;
  theme_var : string;
  window_width_var : option Z;
  window_height_var : option Z;
  fullscreen_var : option bool;
  jvm_text_widget : option string;
  server_ip_var : option string;
  server_port_var : option string
}.

(** [self], together with the JSON files the launcher has written ([disk]
    maps a path to the dictionary dumped there). *)
Record Launcher : Type := mkLauncher {
  settings : gmap string Json;
  prefs : Prefs;
  favorite_versions : gset string;
  recent_versions : list string;
  ui : Widgets;
  disk : gmap string (gmap string Json)
}.

Definition set_settings (d : gmap string Json) (l : Launcher) : Launcher :=
  mkLauncher d (prefs l) (favorite_versions l) (recent_versions l) (ui l) (disk l).

Definition set_prefs (p : Prefs) (l : Launcher) : Launcher :=
  mkLauncher (settings l) p (favorite_versions l) (recent_versions l) (ui l) (disk l).

Definition set_recent_versions (r : list string) (l : Launcher) : Launcher :=
  mkLauncher (settings l) (prefs l) (favorite_versions l) r (ui l) (disk l).

Definition write_file (path : string) (d : gmap string Json) (l : Launcher)
  : Launcher :=
  mkLauncher (settings l) (prefs l) (favorite_versions l) (recent_versions l)
    (ui l) (<[path := d]> (disk l)).

(** ** Saving the settings *)

Definition settings_file : string := "launcher_settings.json".

(** [xs[-10:]] *)
Definition last10 {A : Type} (xs : list A) : list A :=
  drop (length xs - 10) xs.

(** The dictionary literal of [save_settings] (lines 226-241). *)
Definition settings_document (l : Launcher) : gmap string Json :=
  let p := prefs l in
  list_to_map
    [ ("selected_version", selected_version p);
      ("selected_mod_loader", selected_mod_loader p);
      ("java_path", java_path p);
      ("allocated_ram", allocated_ram p);
      ("username", username p);
      ("window_width", window_width p);
      ("window_height", window_height p);
      ("fullscreen", fullscreen p);
      ("custom_jvm_args", custom_jvm_args p);
      ("server_ip", server_ip p);
      ("server_port", server_port p);
      ("favorite_versions", JArr (JStr <$> elements (favorite_versions l)));
      ("recent_versions", JArr (JStr <$> last10 (recent_versions l)));
      ("theme", theme p) ].

(** [save_settings]: [self.settings] is rebound to the literal, which is
    then dumped to the settings file. *)
Definition save_settings (l : Launcher) : Launcher :=
  let d := settings_document l in
  write_file settings_file d (set_settings d l).

(** The keys [save_settings] writes. *)
Definition saved_keys : gset string :=
  list_to_set
    [ "selected_version"; "selected_mod_loader"; "java_path"; "allocated_ram";
      "username"; "window_width"; "window_height"; "fullscreen";
      "custom_jvm_args"; "server_ip"; "server_port"; "favorite_versions";
      "recent_versions"; "theme" ].

(** Assignment to one attribute, [self.<name> = v], for each attribute that
    [save_settings_ui] assigns. *)
Definition with_selected_version (v : Json) (p : Prefs) : Prefs :=
  mkPrefs v (selected_mod_loader p) (java_path p) (allocated_ram p) (username
    p) (window_width p) (window_height p) (fullscreen p) (custom_jvm_args p)
    (server_ip p) (server_port p) (theme p).

Definition with_selected_mod_loader (v : Json) (p : Prefs) : Prefs :=
  mkPrefs (selected_version p) v (java_path p) (allocated_ram p) (username p)
    (window_width p) (window_height p) (fullscreen p) (custom_jvm_args p)
    (server_ip p) (server_port p) (theme p).

Definition with_java_path (v : Json) (p : Prefs) : Prefs :=
  mkPrefs (selected_version p) (selected_mod_loader p) v (allocated_ram p)
    (username p) (window_width p) (window_height p) (fullscreen p)
    (custom_jvm_args p) (server_ip p) (server_port p) (theme p).

Definition with_allocated_ram (v : Json) (p : Prefs) : Prefs :=
  mkPrefs (selected_version p) (selected_mod_loader p) (java_path p) v
    (username p) (window_width p) (window_height p) (fullscreen p)
    (custom_jvm_args p) (server_ip p) (server_port p) (theme p).

Definition with_username (v : Json) (p : Prefs) : Prefs :=
  mkPrefs (selected_version p) (selected_mod_loader p) (java_path p)
    (allocated_ram p) v (window_width p) (window_height p) (fullscreen p)
    (custom_jvm_args p) (server_ip p) (server_port p) (theme p).

Definition with_window_width (v : Json) (p : Prefs) : Prefs :=
  mkPrefs (selected_version p) (selected_mod_loader p) (java_path p)
    (allocated_ram p) (username p) v (window_height p) (fullscreen p)
    (custom_jvm_args p) (server_ip p) (server_port p) (theme p).

Definition with_window_height (v : Json) (p : Prefs) : Prefs :=
  mkPrefs (selected_version p) (selected_mod_loader p) (java_path p)
    (allocated_ram p) (username p) (window_width p) v (fullscreen p)
    (custom_jvm_args p) (server_ip p) (server_port p) (theme p).

Definition with_fullscreen (v : Json) (p : Prefs) : Prefs :=
  mkPrefs (selected_version p) (selected_mod_loader p) (java_path p)
    (allocated_ram p) (username p) (window_width p) (window_height p) v
    (custom_jvm_args p) (server_ip p) (server_port p) (theme p).

Definition with_custom_jvm_args (v : Json) (p : Prefs) : Prefs :=
  mkPrefs (selected_version p) (selected_mod_loader p) (java_path p)
    (allocated_ram p) (username p) (window_width p) (window_height p)
    (fullscreen p) v (server_ip p) (server_port p) (theme p).

Definition with_server_ip (v : Json) (p : Prefs) : Prefs :=
  mkPrefs (selected_version p) (selected_mod_loader p) (java_path p)
    (allocated_ram p) (username p) (window_width p) (window_height p)
    (fullscreen p) (custom_jvm_args p) v (server_port p) (theme p).

Definition with_server_port (v : Json) (p : Prefs) : Prefs :=
  mkPrefs (selected_version p) (selected_mod_loader p) (java_path p)
    (allocated_ram p) (username p) (window_width p) (window_height p)
    (fullscreen p) (custom_jvm_args p) (server_ip p) v (theme p).

Definition with_theme (v : Json) (p : Prefs) : Prefs :=
  mkPrefs (selected_version p) (selected_mod_loader p) (java_path p)
    (allocated_ram p) (username p) (window_width p) (window_height p)
    (fullscreen p) (custom_jvm_args p) (server_ip p) (server_port p) v.

Definition assign (f : Prefs → Prefs) (l : Launcher) : Launcher :=
  set_prefs (f (prefs l)) l.

(** [save_settings_ui] (lines 685-700) assigns twelve attributes from the
    widgets, one after the other, and then saves.  Reading a missing widget
    raises [AttributeError], which nothing catches: the assignments made so
    far stay, nothing is saved, and the flag is [false]. *)
Definition save_settings_ui (l : Launcher) : Launcher * bool :=
  let w := ui l in
  let l := assign (with_username (JStr (username_var w))) l in
  let l := assign (with_java_path (JStr (java_path_var w))) l in
  let l := assign (with_allocated_ram (JInt (ram_var w))) l in
  let l := assign (with_selected_version (JStr (version_var w))) l in
  let l := assign (with_selected_mod_loader (JStr (mod_loader_var w))) l in
  match window_width_var w with
  | None => (l, false)
  | Some width =>
  let l := assign (with_window_width (JInt width)) l in
  match window_height_var w with
  | None => (l, false)
  | Some height =>
  let l := assign (with_window_height (JInt height)) l in
  match fullscreen_var w with
  | None => (l, false)
  | Some full =>
  let l := assign (with_fullscreen (JBool full)) l in
  match jvm_text_widget w with
  | None => (l, false)
  | Some text =>
  let l := assign (with_custom_jvm_args (JStr (PyStr.strip text))) l in
  let l := assign (with_theme (JStr (theme_var w))) l in
  match server_ip_var w with
  | None => (l, false)
  | Some ip =>
  let l := assign (with_server_ip (JStr ip)) l in
  match server_port_var w with
  | None => (l, false)
  | Some port =>
  let l := assign (with_server_port (JStr port)) l in
  (save_settings l, true)
  end end end end end end.

(** ** The outside world *)

Inductive CommandResult : Type :=
  | CommandOk (command : list string)
  | CommandVersionNotFound      (* [exceptions.VersionNotFound] *)
  | CommandError.               (* any other exception *)

Inductive PopenResult : Type :=
  | PopenOk (pid : Z)
  | PopenFileNotFound           (* [FileNotFoundError] *)
  | PopenError.                 (* any other exception *)

(** What [launch] obtains from the file system, from [minecraft_launcher_lib],
    from [subprocess] and from the clock. *)
Record Env : Type := mkEnv {
  (** [os.path.exists(os.path.join(versions_dir, v, f"{v}.json"))] *)
  installed : string → bool;
  (** [minecraft_launcher_lib.utils.generate_test_options()] *)
  generate_test_options : gmap string Json;
  (** [minecraft_launcher_lib.command.get_minecraft_command(v, dir, options)] *)
  get_minecraft_command : string → gmap string Json → CommandResult;
  (** [subprocess.Popen(command, ...)] *)
  Popen : list string → PopenResult;
  (** [datetime.now().strftime("%Y-%m-%d %H:%M:%S")] *)
  now : string;
  (** [self.find_java()] *)
  find_java : Json
}.

(** ** Recent versions (lines 1675-1681) *)

(** [xs.remove(x)]: drops the first occurrence. *)
Fixpoint py_remove (x : string) (xs : list string) : list string :=
  match xs with
  | [] => []
  | y :: r => if String.eqb x y then r else y :: py_remove x r
  end.

(** [x in xs] *)
Definition py_in (x : string) (xs : list string) : bool :=
  existsb (String.eqb x) xs.

Definition add_recent (launch_version : string) (recent : list string)
  : list string :=
  last10
    (if negb (py_in launch_version recent)
     then recent ++ [launch_version]
     else py_remove launch_version recent ++ [launch_version]).

(** The list after a sequence of launches that reached the update, starting
    from the empty default of a fresh settings file. *)
Definition recent_after (launches : list string) : list string :=
  foldl (λ recent launch_version, add_recent launch_version recent) [] launches.

(** ** Statistics (lines 1721-1731) *)

(** The update of the statistics dictionary.  It is defined for dictionaries
    of the shape the launcher writes: [total_launches] absent or an integer,
    [version_counts] absent or a dictionary of integers. *)
Definition update_statistics (now launch_version : string) (stats : Json)
  : Py Json :=
  match stats with
  | JObj s0 =>
      match default (JInt 0) (Dict.get "total_launches" s0) with
      | JInt total =>
          let s1 := Dict.set "total_launches" (JInt (total + 1)) s0 in
          let s2 := Dict.set "last_launch" (JStr now) s1 in
          match default (JObj []) (Dict.get "version_counts" s2) with
          | JObj counts =>
              match Dict.int_values counts with
              | Some _ =>
                  (* if launch_version not in ...: ...[launch_version] = 0 *)
                  let counts1 :=
                    match Dict.get launch_version counts with
                    | None => Dict.set launch_version (JInt 0) counts
                    | Some _ => counts
                    end in
                  (* ...[launch_version] = ....get(launch_version, 0) + 1 *)
                  match default (JInt 0) (Dict.get launch_version counts1) with
                  | JInt c =>
                      let counts2 :=
                        Dict.set launch_version (JInt (c + 1)) counts1 in
                      let s3 := Dict.set "version_counts" (JObj counts2) s2 in
                      (* if stats.get("version_counts"): most_used = max(...) *)
                      match Dict.int_values counts2 with
                      | Some ints =>
                          match Dict.max_key ints with
                          | Some best =>
                              Ret (JObj (Dict.set "most_used_version"
                                           (JStr best) s3))
                          | None => Ret (JObj s3)
                          end
                      | None => Unmodelled
                      end
                  | _ => Unmodelled
                  end
              | None => Unmodelled
              end
          | _ => Unmodelled
          end
      | _ => Unmodelled
      end
  | _ => Unmodelled
  end.

(** ** Launching *)

(** The paths through [launch_minecraft], named after the message box or
    status line each one ends in. *)
Inductive Outcome : Type :=
  | NoVersion                                   (* "No Version" *)
  | InvalidVersion (version : string)           (* "Invalid Version" *)
  | NoUsername                                  (* "No Username" *)
  | UncaughtAttributeError                      (* raised by [save_settings_ui] *)
  | VersionNotInstalled (version : string)      (* "Version Not Installed" *)
  | UnexpectedError                             (* "Launch failed" *)
  | VersionNotFound (launch_version : string) (options : gmap string Json)
                                                (* "Version Not Found" *)
  | CommandCreationFailed (launch_version : string) (options : gmap string Json)
                                                (* "Command creation failed" *)
  | JavaNotFound (launch_version : string) (options : gmap string Json)
                                                (* "Java Not Found"  *)
  | ProcessStartFailed (launch_version : string) (options : gmap string Json)
                                                (* "Process start failed" *)
  | Launched (launch_version : string) (options : gmap string Json) (pid : Z)
                                                (* "Minecraft is running" *)
  | OutsideModel.                               (* see [Unmodelled] *)

(** The checks at the head of [launch_minecraft] (lines 1577-1593): the
    failure, or the trimmed version and username. *)
Definition validate (w : Widgets) : Outcome + string * string :=
  let version := PyStr.strip (version_var w) in
  if negb (PyStr.nonempty version)
     || String.eqb (PyStr.lower version) "value"
     || String.eqb version ""
  then inl NoVersion
  else if negb (PyStr.any_digit version) then inl (InvalidVersion version)
  else
    let username := PyStr.strip (username_var w) in
    if negb (PyStr.nonempty username) then inl NoUsername
    else inr (version, username).

(** The loop over [possible_versions] (lines 1626-1631): the first installed
    candidate replaces [launch_version]. *)
Fixpoint first_installed (env : Env) (possible_versions : list string)
    (launch_version : string) : string :=
  match possible_versions with
  | [] => launch_version
  | poss_version :: r =>
      if installed env poss_version then poss_version
      else first_installed env r launch_version
  end.

(** Lines 1614-1631. *)
Definition find_launch_version (env : Env) (mod_loader version : string)
  : string :=
  if negb (String.eqb mod_loader "vanilla")
  then first_installed env
         [ mod_loader +:+ "-" +:+ version; version +:+ "-" +:+ mod_loader ]
         version
  else version.

(** [[arg.strip() for arg in text.split('\n') if arg.strip()]] *)
Definition custom_lines (text : string) : list string :=
  List.filter PyStr.nonempty (PyStr.strip <$> PyStr.split_lines text).

(** Lines 1637-1650. *)
Definition jvm_arguments (l : Launcher) : Py (list string) :=
  let ram_mb := ram_var (ui l) in
  let jvm_args := [ "-Xmx" +:+ PyStr.of_Z ram_mb +:+ "M";
                    "-Xms" +:+ PyStr.of_Z (ram_mb `div` 2) +:+ "M" ] in
  match jvm_text_widget (ui l) with
  | Some text =>
      let custom_args := PyStr.strip text in
      if PyStr.nonempty custom_args
      then Ret (jvm_args ++ custom_lines custom_args)
      else Ret jvm_args
  | None =>
      if truthy (custom_jvm_args (prefs l))
      then match custom_jvm_args (prefs l) with
           | JStr s => Ret (jvm_args ++ custom_lines s)
           | _ => Raise                  (* no [split] attribute *)
           end
      else Ret jvm_args
  end.

(** Lines 1657-1665. *)
Definition window_options (l : Launcher) (options : gmap string Json)
  : Py (gmap string Json) :=
  let w := ui l in
  let resolution (width height : string) : gmap string Json :=
    <["resolutionHeight" := JStr height]>
      (<["resolutionWidth" := JStr width]>
         (<["customResolution" := JBool true]> options)) in
  if default false (fullscreen_var w) then
    width ← match window_width_var w with
            | Some n => Ret (PyStr.of_Z n)
            | None => py_str (window_width (prefs l))
            end;
    height ← match window_height_var w with
             | Some n => Ret (PyStr.of_Z n)
             | None => py_str (window_height (prefs l))
             end;
    Ret (resolution width height)
  else
    match window_width_var w with
    | Some width =>
        match window_height_var w with
        | Some height => Ret (resolution (PyStr.of_Z width) (PyStr.of_Z height))
        | None => Raise
        end
    | None => Ret options
    end.

(** Lines 1667-1673. *)
Definition server_options (l : Launcher) (options : gmap string Json)
  : gmap string Json :=
  let server_ip := match server_ip_var (ui l) with
                   | Some s => JStr (PyStr.strip s)
                   | None => server_ip (prefs l)
                   end in
  let server_port := match server_port_var (ui l) with
                     | Some s => JStr (PyStr.strip s)
                     | None => server_port (prefs l)
                     end in
  if truthy server_ip then
    let options := <["server" := server_ip]> options in
    if truthy server_port then <["port" := server_port]> options else options
  else options.

(** Lines 1633-1673: the options dictionary handed to the backend. *)
Definition build_options (env : Env) (username : string) (l : Launcher)
  : Py (gmap string Json) :=
  let options := <["username" := JStr username]> (generate_test_options env) in
  jvm_args ← jvm_arguments l;
  let options := <["jvmArguments" := JArr (JStr <$> jvm_args)]> options in
  let options := <["executablePath" := JStr (java_path_var (ui l))]> options in
  options ← window_options l options;
  Ret (server_options l options).

(** The body of the worker [launch] (lines 1602-1757), run on the launcher
    as [save_settings_ui] left it. *)
Definition launch (env : Env) (version username : string) (l : Launcher)
  : Launcher * Outcome :=
  if negb (installed env version) then (l, VersionNotInstalled version)
  else
    let mod_loader := mod_loader_var (ui l) in
    let launch_version := find_launch_version env mod_loader version in
    match build_options env username l with
    | Raise => (l, UnexpectedError)
    | Unmodelled => (l, OutsideModel)
    | Ret options =>
        let l := set_recent_versions
                   (add_recent launch_version (recent_versions l)) l in
        match get_minecraft_command env launch_version options with
        | CommandVersionNotFound => (l, VersionNotFound launch_version options)
        | CommandError => (l, CommandCreationFailed launch_version options)
        | CommandOk command =>
            match Popen env command with
            | PopenFileNotFound => (l, JavaNotFound launch_version options)
            | PopenError => (l, ProcessStartFailed launch_version options)
            | PopenOk pid =>
                let stats := default (JObj []) (settings l !! "statistics") in
                match update_statistics (now env) launch_version stats with
                | Ret stats =>
                    (save_settings
                       (set_settings (<["statistics" := stats]> (settings l)) l),
                     Launched launch_version options pid)
                | _ => (l, OutsideModel)
                end
            end
        end
    end.

(** [launch_minecraft] (lines 1575-1759). *)
Definition launch_minecraft (env : Env) (l : Launcher) : Launcher * Outcome :=
  match validate (ui l) with
  | inl failure => (l, failure)
  | inr (version, username) =>
      match save_settings_ui l with
      | (l, false) => (l, UncaughtAttributeError)
      | (l, true) => launch env version username l
      end
  end.

(** ** Importing and exporting the settings *)

(** [self.settings.update(imported_settings)]: the imported value wins on a
    key that both dictionaries have. *)
Definition merged_settings (imported_settings : gmap string Json)
    (l : Launcher) : gmap string Json :=
  imported_settings ∪ settings l.

(** [import_settings] (lines 746-771).  [file_path] is what the file dialog
    returned and [loaded] the dictionary [json.load] read from that file,
    [None] when opening or parsing it raised.  A file whose top-level value
    is not a dictionary is not modelled. *)
Definition import_settings (env : Env) (file_path : string)
    (loaded : option (gmap string Json)) (l : Launcher) : Launcher :=
  if PyStr.nonempty file_path then
    match loaded with
    | None => l
    | Some imported_settings =>
        let merged := merged_settings imported_settings l in
        let get (key : string) (fallback : Json) : Json :=
          default fallback (merged !! key) in
        let p := prefs l in
        let reloaded :=
          mkPrefs (get "selected_version" (JStr ""))
                  (get "selected_mod_loader" (JStr "vanilla"))
                  (get "java_path" (find_java env))
                  (get "allocated_ram" (JInt 4096))
                  (get "username" (JStr "Player"))
                  (get "window_width" (JInt 854))
                  (get "window_height" (JInt 480))
                  (get "fullscreen" (JBool false))
                  (get "custom_jvm_args" (JStr ""))
                  (server_ip p) (server_port p)
                  (get "theme" (JStr "light")) in
        save_settings (set_prefs reloaded (set_settings merged l))
    end
  else l.

(** [export_settings] (lines 731-744): [self.settings] is dumped to the
    chosen path. *)
Definition export_settings (file_path : string) (l : Launcher) : Launcher :=
  if PyStr.nonempty file_path then write_file file_path (settings l) l else l.

(** ** Vocabulary of the specification *)

(** The error taxonomy of the specification (its section 7). *)
Inductive ErrorClass : Type :=
  | InvalidVersionError
  | MissingUsername
  | VersionNotInstalledError
  | BackendCommandError
  | ProcessStartError.

(** The class of a path; the "No Version" and "Invalid Version" boxes are
    both the specification's InvalidVersion. *)
Definition error_class (o : Outcome) : option ErrorClass :=
  match o with
  | NoVersion | InvalidVersion _ => Some InvalidVersionError
  | NoUsername => Some MissingUsername
  | VersionNotInstalled _ => Some VersionNotInstalledError
  | VersionNotFound _ _ | CommandCreationFailed _ _ => Some BackendCommandError
  | JavaNotFound _ _ | ProcessStartFailed _ _ => Some ProcessStartError
  | UncaughtAttributeError | UnexpectedError | Launched _ _ _ | OutsideModel =>
      None
  end.

(** The version and the options handed to the backend, on the paths that
    reach it: the specification's effectiveVersion and resolved options. *)
Definition resolved (o : Outcome) : option (string * gmap string Json) :=
  match o with
  | VersionNotFound v opts | CommandCreationFailed v opts
  | JavaNotFound v opts | ProcessStartFailed v opts
  | Launched v opts _ => Some (v, opts)
  | _ => None
  end.

(** The installed set [I] as the answers of the file system. *)
Definition installed_set (I : gset string) (v : string) : bool :=
  bool_decide (v ∈ I).

(** ** Concrete launchers and worlds used in the examples *)

Module Sample.

Definition default_prefs : Prefs :=
  mkPrefs (JStr "") (JStr "vanilla") (JStr "java") (JInt 4096) (JStr "Player")
          (JInt 854) (JInt 480) (JBool false) (JStr "") (JStr "")
          (JStr "25565") (JStr "light").

(** A launcher on a fresh settings file whose widgets hold the given
    request, with 4096 MB and two lines of JVM arguments, the second one
    blank. *)
Definition request (version mod_loader username server_ip server_port : string)
  : Launcher :=
  mkLauncher ∅ default_prefs ∅ []
    (mkWidgets version mod_loader username "java" 4096 "light"
       (Some 854) (Some 480) (Some false)
       (Some ("-XX:+UseG1GC" +:+ String PyStr.newline "" +:+
              String PyStr.newline ""))
       (Some server_ip) (Some server_port))
    ∅.

(** The same launcher with another content of the JVM-arguments widget. *)
Definition request_with_jvm_text (text : string) : Launcher :=
  mkLauncher ∅ default_prefs ∅ []
    (mkWidgets "1.20.1" "fabric" "Steve" "java" 4096 "light"
       (Some 854) (Some 480) (Some false) (Some text) (Some "") (Some ""))
    ∅.

(** The specification's scenario: Steve starts 1.20.1 with Fabric. *)
Definition launcher (server_ip server_port : string) : Launcher :=
  request "1.20.1" "fabric" "Steve" server_ip server_port.

(** [generate_test_options()] of the library: a user name, a uuid and an
    empty token. *)
Definition test_options : gmap string Json :=
  list_to_map [ ("username", JStr "Player123"); ("uuid", JStr "0000");
                ("token", JStr "") ].

(** A world with the installed set [I] whose backend answers
    [command_result] and whose process start answers [popen_result]. *)
Definition world (I : gset string) (command_result : CommandResult)
    (popen_result : PopenResult) : Env :=
  mkEnv (installed_set I) test_options (λ _ _, command_result)
        (λ _, popen_result) "2024-01-01 10:00:00" (JStr "java").

Definition good_world (I : gset string) : Env :=
  world I (CommandOk ["java"]) (PopenOk 4242).

End Sample.

(** ** The rest of the window *)

(** How a button handler ends: silently, with a message box of the given
    title, with an exception that leaves the handler (Tk reports it and goes
    on), or at an operation this embedding does not define.  A handler
    returns the state it leaves together with its reply. *)
Inductive Reply : Type :=
  | Silent
  | Box (title : string)
  | Raised (exception : string)
  | NotModelled.


Definition set_ui (w : Widgets) (l : Launcher) : Launcher :=
  mkLauncher (settings l) (prefs l) (favorite_versions l) (recent_versions l)
    w (disk l).

(** [var.set(v)] for the Tk variables that handlers write. *)
Definition with_version_var (v : string) (w : Widgets) : Widgets :=
  mkWidgets v (mod_loader_var w) (username_var w) (java_path_var w) (ram_var w)
    (theme_var w) (window_width_var w) (window_height_var w) (fullscreen_var w)
    (jvm_text_widget w) (server_ip_var w) (server_port_var w).

Definition with_mod_loader_var (v : string) (w : Widgets) : Widgets :=
  mkWidgets (version_var w) v (username_var w) (java_path_var w) (ram_var w)
    (theme_var w) (window_width_var w) (window_height_var w) (fullscreen_var w)
    (jvm_text_widget w) (server_ip_var w) (server_port_var w).

Definition with_username_var (v : string) (w : Widgets) : Widgets :=
  mkWidgets (version_var w) (mod_loader_var w) v (java_path_var w) (ram_var w)
    (theme_var w) (window_width_var w) (window_height_var w) (fullscreen_var w)
    (jvm_text_widget w) (server_ip_var w) (server_port_var w).

Definition with_ram_var (v : Z) (w : Widgets) : Widgets :=
  mkWidgets (version_var w) (mod_loader_var w) (username_var w)
    (java_path_var w) v
    (theme_var w) (window_width_var w) (window_height_var w) (fullscreen_var w)
    (jvm_text_widget w) (server_ip_var w) (server_port_var w).

Definition with_server_vars (ip port : string) (w : Widgets) : Widgets :=
  mkWidgets (version_var w) (mod_loader_var w) (username_var w)
    (java_path_var w) (ram_var w)
    (theme_var w) (window_width_var w) (window_height_var w) (fullscreen_var w)
    (jvm_text_widget w) (Some ip) (Some port).

(** The launcher with the list boxes, combo boxes and attributes that the
    handlers outside [launch_minecraft] use.  A list box holds the strings
    it shows; [version_tree] holds the rows (version, type, status). *)
Record App : Type := mkApp {
  core : Launcher;
  current_profile : Json;
  disabled_mods : gset string;
  enabled_resourcepacks : gset string;
  version_combo : list string;
  mod_loader_version_combo : list string;
  mod_loader_version_var : string;
  version_tree : list (string * string * string);
  saved_servers_listbox : list string;
  profiles_listbox : list string;
  stats_text_widget : list string
}.

Definition set_core (l : Launcher) (a : App) : App :=
  mkApp l (current_profile a) (disabled_mods a) (enabled_resourcepacks a)
    (version_combo a) (mod_loader_version_combo a) (mod_loader_version_var a)
    (version_tree a) (saved_servers_listbox a) (profiles_listbox a)
    (stats_text_widget a).

Definition set_current_profile (p : Json) (a : App) : App :=
  mkApp (core a) p (disabled_mods a) (enabled_resourcepacks a)
    (version_combo a) (mod_loader_version_combo a) (mod_loader_version_var a)
    (version_tree a) (saved_servers_listbox a) (profiles_listbox a)
    (stats_text_widget a).

Definition set_saved_servers_listbox (entries : list string) (a : App) : App :=
  mkApp (core a) (current_profile a) (disabled_mods a) (enabled_resourcepacks a)
    (version_combo a) (mod_loader_version_combo a) (mod_loader_version_var a)
    (version_tree a) entries (profiles_listbox a) (stats_text_widget a).

Definition set_profiles_listbox (entries : list string) (a : App) : App :=
  mkApp (core a) (current_profile a) (disabled_mods a) (enabled_resourcepacks a)
    (version_combo a) (mod_loader_version_combo a) (mod_loader_version_var a)
    (version_tree a) (saved_servers_listbox a) entries (stats_text_widget a).

Definition set_version_tree (rows : list (string * string * string)) (a : App)
  : App :=
  mkApp (core a) (current_profile a) (disabled_mods a) (enabled_resourcepacks a)
    (version_combo a) (mod_loader_version_combo a) (mod_loader_version_var a)
    rows (saved_servers_listbox a) (profiles_listbox a) (stats_text_widget a).

Definition set_version_combos (values : list string) (a : App) : App :=
  mkApp (core a) (current_profile a) (disabled_mods a) (enabled_resourcepacks a)
    values values "" (version_tree a) (saved_servers_listbox a)
    (profiles_listbox a) (stats_text_widget a).

(** A JSON list of strings; any other value has no such reading. *)
Fixpoint strings_of (items : list Json) : option (list string) :=
  match items with
  | [] => Some []
  | JStr s :: r => cons s <$> strings_of r
  | _ => None
  end.

(** [d.get(key, [])] when it is a list of strings. *)
Definition get_strings (key : string) (d : gmap string Json)
  : option (list string) :=
  match d !! key with
  | None => Some []
  | Some (JArr items) => strings_of items
  | Some _ => None
  end.

(** ** Resetting the settings (lines 773-788) *)

(** [confirmed] is the answer to the "Reset Settings" question. *)
Definition reset_settings (env : Env) (confirmed : bool) (l : Launcher)
  : Launcher :=
  if confirmed then
    let l := set_settings ∅ l in
    let l := assign (with_selected_version (JStr "")) l in
    let l := assign (with_selected_mod_loader (JStr "vanilla")) l in
    let l := assign (with_java_path (find_java env)) l in
    let l := assign (with_allocated_ram (JInt 4096)) l in
    let l := assign (with_username (JStr "Player")) l in
    let l := assign (with_window_width (JInt 854)) l in
    let l := assign (with_window_height (JInt 480)) l in
    let l := assign (with_fullscreen (JBool false)) l in
    let l := assign (with_custom_jvm_args (JStr "")) l in
    let l := assign (with_theme (JStr "light")) l in
    save_settings l
  else l.

(** ** Favourite versions (lines 843-857) *)


(** ** Saved servers (lines 790-837) *)

(** [s.split(sep)] for a one-character separator. *)
Fixpoint split_on (sep : ascii) (s : string) : list string :=
  match s with
  | EmptyString => [EmptyString]
  | String c r =>
      if Ascii.eqb c sep then EmptyString :: split_on sep r
      else match split_on sep r with
           | h :: t => String c h :: t
           | [] => [String c EmptyString]
           end
  end.

(** [sep in s] for a one-character [sep]. *)
Fixpoint has_char (sep : ascii) (s : string) : bool :=
  match s with
  | EmptyString => false
  | String c r => Ascii.eqb c sep || has_char sep r
  end.

Definition colon : ascii := ascii_of_N 58.

(** The entry [f"{ip}:{port}"] that [add_server] builds from the two entry
    fields. *)
Definition server_info (ip_field port_field : string) : string :=
  let ip := PyStr.strip ip_field in
  let port := PyStr.strip port_field in
  let port := if negb (PyStr.nonempty port) then "25565" else port in
  ip +:+ ":" +:+ port.

(** [load_saved_servers] (lines 833-837): the list box shows the entries of
    [saved_servers]; defined when that is absent or a list of strings. *)
Definition load_saved_servers (a : App) : option App :=
  match get_strings "saved_servers" (settings (core a)) with
  | Some servers => Some (set_saved_servers_listbox servers a)
  | None => None
  end.

(** [add_server] (lines 790-806); defined when [saved_servers] is absent or
    a list of strings. *)
Definition add_server (a : App) : App * Reply :=
  match server_ip_var (ui (core a)) with
  | None => (a, Raised "AttributeError")
  | Some ip_field =>
  match server_port_var (ui (core a)) with
  | None => (a, Raised "AttributeError")
  | Some port_field =>
      if negb (PyStr.nonempty (PyStr.strip ip_field)) then (a, Box "No IP")
      else
        let entry := server_info ip_field port_field in
        match get_strings "saved_servers" (settings (core a)) with
        | None => (a, NotModelled)
        | Some servers =>
            if negb (py_in entry servers) then
              let l := set_settings
                         (<["saved_servers" := JArr (JStr <$> servers ++ [entry])]>
                            (settings (core a)))
                         (core a) in
              let a := set_core (save_settings l) a in
              match load_saved_servers a with
              | Some a => (a, Box "Success")
              | None => (a, NotModelled)
              end
            else (a, Silent)
        end
  end end.

(** [remove_server] (lines 808-818).  [selected] is the index of the selected
    entry, [None] when nothing is selected. *)
Definition remove_server (selected : option nat) (a : App) : App * Reply :=
  match selected with
  | None => (a, Box "No Selection")
  | Some i =>
      let entry := default "" (saved_servers_listbox a !! i) in
      match get_strings "saved_servers" (settings (core a)) with
      | None => (a, NotModelled)
      | Some servers =>
          if py_in entry servers then
            let l := set_settings
                       (<["saved_servers" := JArr (JStr <$> py_remove entry servers)]>
                          (settings (core a)))
                       (core a) in
            let a := set_core (save_settings l) a in
            match load_saved_servers a with
            | Some a => (a, Silent)
            | None => (a, NotModelled)
            end
          else (a, Silent)
      end
  end.

(** [connect_to_server] (lines 820-831): unpacking [split(":")] into two
    names raises [ValueError] unless there are exactly two pieces. *)
Definition connect_to_server (selected : option nat) (a : App) : App * Reply :=
  match selected with
  | None => (a, Box "No Selection")
  | Some i =>
      let entry := default "" (saved_servers_listbox a !! i) in
      if has_char colon entry then
        match split_on colon entry with
        | [ip; port] =>
            let w := ui (core a) in
            match server_ip_var w with
            | None => (a, Raised "AttributeError")
            | Some _ =>
                let w := mkWidgets (version_var w) (mod_loader_var w)
                           (username_var w) (java_path_var w) (ram_var w)
                           (theme_var w) (window_width_var w)
                           (window_height_var w) (fullscreen_var w)
                           (jvm_text_widget w) (Some ip) (server_port_var w) in
                match server_port_var w with
                | None => (set_core (set_ui w (core a)) a,
                           Raised "AttributeError")
                | Some _ =>
                    (set_core (set_ui (with_server_vars ip port w) (core a)) a,
                     Box "Server Selected")
                end
            end
        | _ => (a, Raised "ValueError")
        end
      else (a, Silent)
  end.

(** ** Sorting *)

(** [sorted(xs)] for strings: Python orders strings by code point, which is
    the order of [String.leb]; the order is total and antisymmetric, so any
    sorting function returns the list that [sorted] returns. *)
Definition string_le (a b : string) : Prop := String.leb a b = true.

#[global] Instance string_le_dec a b : Decision (string_le a b).
Proof. unfold string_le. apply _. Defined.

Definition py_sorted (xs : list string) : list string :=
  merge_sort string_le xs.

(** [sorted(xs, reverse=True)] *)
Definition py_sorted_reverse (xs : list string) : list string :=
  merge_sort (flip string_le) xs.

(** ** Profiles (lines 1394-1529) *)

(** [load_profiles_list] (lines 1524-1529): the list box shows the sorted
    names of [profiles]; defined when that is absent or a dictionary. *)
Definition load_profiles_list (a : App) : option App :=
  match settings (core a) !! "profiles" with
  | None => Some (set_profiles_listbox [] a)
  | Some (JObj profiles) =>
      Some (set_profiles_listbox (py_sorted (fst <$> profiles)) a)
  | Some _ => None
  end.

(** [del d[k]] *)
Fixpoint dict_delete (k : string) (d : list (string * Json))
  : list (string * Json) :=
  match d with
  | [] => []
  | (k', v) :: r => if String.eqb k k' then r else (k', v) :: dict_delete k r
  end.

(** The "Create" button of the dialog opened by [create_new_profile]
    (lines 1420-1441).  The arguments are the dialog's four fields, the
    answer to the "Overwrite" question should it be asked, and
    [datetime.now().isoformat()]. *)
Definition save_profile (name_field version_field : string) (ram_field : Z)
    (loader_field : string) (overwrite : bool) (created : string) (a : App)
  : App * Reply :=
  let name := PyStr.strip name_field in
  if negb (PyStr.nonempty name) then (a, Box "Error")
  else
    match default (JObj []) (settings (core a) !! "profiles") with
    | JObj profiles =>
        if match Dict.get name profiles with Some _ => negb overwrite
           | None => false end
        then (a, Silent)
        else
          let profile :=
            JObj [ ("version", JStr version_field);
                   ("ram", JInt ram_field);
                   ("mod_loader", JStr loader_field);
                   ("username", username (prefs (core a)));
                   ("created", JStr created) ] in
          let l := set_settings
                     (<["profiles" := JObj (Dict.set name profile profiles)]>
                        (settings (core a)))
                     (core a) in
          let a := set_core (save_settings l) a in
          match load_profiles_list a with
          | Some a => (a, Silent)
          | None => (a, NotModelled)
          end
    | _ => (a, NotModelled)
    end.

(** [load_profile] (lines 1445-1468); defined for a profile whose
    [version], [mod_loader] and [username] are strings and whose [ram] is
    an integer, each where present. *)
Definition load_profile (selected : option nat) (a : App) : App * Reply :=
  match selected with
  | None => (a, Box "No Selection")
  | Some i =>
      let profile_name := default "" (profiles_listbox a !! i) in
      match default (JObj []) (settings (core a) !! "profiles") with
      | JObj profiles =>
          match Dict.get profile_name profiles with
          | None => (a, Box "Error")
          | Some (JObj profile) =>
              match default (JStr "") (Dict.get "version" profile),
                    default (JStr "vanilla") (Dict.get "mod_loader" profile),
                    default (JInt 4096) (Dict.get "ram" profile),
                    default (JStr "") (Dict.get "username" profile) with
              | JStr version, JStr mod_loader, JInt ram, JStr user =>
                  let w := ui (core a) in
                  let w := with_version_var version w in
                  let w := with_mod_loader_var mod_loader w in
                  let w := with_ram_var ram w in
                  let w := match Dict.get "username" profile with
                           | Some _ => with_username_var user w
                           | None => w
                           end in
                  let a := set_current_profile (JStr profile_name) a in
                  let l := set_ui w (core a) in
                  let l := set_settings
                             (<["current_profile" := JStr profile_name]>
                                (settings l)) l in
                  (set_core (save_settings l) a, Box "Profile Loaded")
              | _, _, _, _ => (a, NotModelled)
              end
          | Some _ => (a, NotModelled)
          end
      | _ => (a, NotModelled)
      end
  end.

(** [delete_profile] (lines 1470-1484); [confirmed] is the answer to the
    "Delete Profile" question. *)
Definition delete_profile (selected : option nat) (confirmed : bool) (a : App)
  : App * Reply :=
  match selected with
  | None => (a, Box "No Selection")
  | Some i =>
      let profile_name := default "" (profiles_listbox a !! i) in
      if confirmed then
        match default (JObj []) (settings (core a) !! "profiles") with
        | JObj profiles =>
            match Dict.get profile_name profiles with
            | Some _ =>
                let l := set_settings
                           (<["profiles" :=
                                JObj (dict_delete profile_name profiles)]>
                              (settings (core a)))
                           (core a) in
                let a := set_core (save_settings l) a in
                match load_profiles_list a with
                | Some a => (a, Silent)
                | None => (a, NotModelled)
                end
            | None => (a, Silent)
            end
        | _ => (a, NotModelled)
        end
      else (a, Silent)
  end.

(** ** The version lists (lines 859-910 and 1531-1540) *)

(** What [fetch_versions] reads: the catalogue of
    [minecraft_launcher_lib.utils.get_version_list()] as pairs (id, type),
    [None] when the call raises; the names in the versions directory, [None]
    when the directory does not exist; and which names are directories. *)
Record Catalogue : Type := mkCatalogue {
  get_version_list : option (list (string * string));
  listdir_versions : option (list string);
  isdir_version : string → bool
}.

(** [update_version_combos] (lines 1531-1540). *)
Definition update_version_combos (version_list : list string) (a : App) : App :=
  let a := set_version_combos version_list a in
  let current_val := version_var (ui (core a)) in
  if PyStr.nonempty current_val && negb (py_in current_val version_list)
  then set_core (set_ui (with_version_var "" (ui (core a))) (core a)) a
  else a.

(** The set [installed_versions] of lines 874-879. *)
Definition installed_versions (env : Env) (cat : Catalogue) : gset string :=
  match listdir_versions cat with
  | None => ∅
  | Some names => list_to_set (List.filter (installed env) names)
  end.

(** The loop of lines 894-898 over the installed versions: one that is not
    listed yet gets a row and joins [version_ids]. *)
Fixpoint add_modded (installed_list : list string)
    (rows : list (string * string * string)) (version_ids : list string)
  : list (string * string * string) * list string :=
  match installed_list with
  | [] => (rows, version_ids)
  | v :: r =>
      if negb (py_in v version_ids)
      then add_modded r (rows ++ [(v, "modded", "Installed")]) (version_ids ++ [v])
      else add_modded r rows version_ids
  end.

(** The worker [fetch_versions] (lines 864-908) followed by the
    [update_version_combos] it schedules.  When the catalogue cannot be
    fetched nothing changes but the status line. *)
Definition fetch_versions (env : Env) (cat : Catalogue) (a : App) : App :=
  match get_version_list cat with
  | None => a
  | Some version_list =>
      let installed_set := installed_versions env cat in
      let rows :=
        (λ info : string * string,
           (info.1, info.2,
            if bool_decide (info.1 ∈ installed_set)
            then "Installed" else "Not Installed")) <$> version_list in
      let version_ids := fst <$> version_list in
      let '(rows, version_ids) :=
        add_modded (elements installed_set) rows version_ids in
      update_version_combos (py_sorted_reverse version_ids)
        (set_version_tree rows a)
  end.

(** ** Start-up (lines 21-93, 212-221 and the [create_*_tab] methods) *)

(** The dictionary that [__init__] stores when the settings have no
    [statistics]. *)
Definition default_statistics : Json :=
  JObj [ ("total_launches", JInt 0); ("total_playtime", JInt 0);
         ("most_used_version", JStr ""); ("last_launch", JStr "") ].

(** The text after ["Total Playtime: "] (line 1351). *)
Definition playtime_text (total_playtime : Z) : string :=
  PyStr.of_Z (total_playtime `div` 3600) +:+ "h " +:+
  PyStr.of_Z ((total_playtime `mod` 3600) `div` 60) +:+ "m".

(** [py_str] as an option. *)
Definition str_of (v : Json) : option string :=
  match py_str v with Ret s => Some s | _ => None end.

(** The five computed lines that [create_statistics_tab] (lines 1340-1354)
    inserts after its heading; defined when [statistics] is a dictionary
    whose [total_playtime] is an integer and whose other values are
    scalars. *)
Definition statistics_lines (cat : Catalogue) (d : gmap string Json)
  : option (list string) :=
  match default (JObj []) (d !! "statistics") with
  | JObj stats =>
      total_launches ← str_of (default (JInt 0) (Dict.get "total_launches" stats));
      playtime ← match default (JInt 0) (Dict.get "total_playtime" stats) with
                 | JInt t => Some (playtime_text t)
                 | _ => None
                 end;
      favorite ← str_of (default (JStr "None")
                           (Dict.get "most_used_version" stats));
      last_launch ← str_of (default (JStr "Never") (Dict.get "last_launch" stats));
      let installed_count :=
        match listdir_versions cat with
        | Some names => length (List.filter (isdir_version cat) names)
        | None => 0%nat
        end in
      Some [ "Total Launches: " +:+ total_launches;
             "Total Playtime: " +:+ playtime;
             "Most Used Version: " +:+ favorite;
             "Last Launch: " +:+ last_launch;
             "Installed Versions: " +:+ PyStr.of_Z (Z.of_nat installed_count) ]
  | _ => None
  end.

Definition as_str (v : Json) : option string :=
  match v with JStr s => Some s | _ => None end.

Definition as_int (v : Json) : option Z :=
  match v with JInt n => Some n | _ => None end.

Definition as_bool (v : Json) : option bool :=
  match v with JBool b => Some b | _ => None end.

(** [load_settings] (lines 212-221): the dictionary in the settings file,
    or an empty one when there is no such file. *)
Definition load_settings (files : gmap string (gmap string Json))
  : gmap string Json :=
  default ∅ (files !! settings_file).

(** [__init__] up to the point where it starts the version fetch, on a disk
    holding [files].  The result is defined when every attribute shown in a
    Tk variable has the type of that variable, the four list settings are
    lists of strings, and the statistics and profiles have the shape their
    tabs read; the mod and resource-pack list boxes and the font are not
    part of the state. *)
Definition init (env : Env) (cat : Catalogue)
    (files : gmap string (gmap string Json)) : option App :=
  let loaded := load_settings files in
  let get (key : string) (fallback : Json) := default fallback (loaded !! key) in
  let p := mkPrefs (get "selected_version" (JStr ""))
                   (get "selected_mod_loader" (JStr "vanilla"))
                   (get "java_path" (find_java env))
                   (get "allocated_ram" (JInt 4096))
                   (get "username" (JStr "Player"))
                   (get "window_width" (JInt 854))
                   (get "window_height" (JInt 480))
                   (get "fullscreen" (JBool false))
                   (get "custom_jvm_args" (JStr ""))
                   (get "server_ip" (JStr ""))
                   (get "server_port" (JStr "25565"))
                   (get "theme" (JStr "light")) in
  favorites ← get_strings "favorite_versions" loaded;
  recent ← get_strings "recent_versions" loaded;
  disabled ← get_strings "disabled_mods" loaded;
  packs ← get_strings "enabled_resourcepacks" loaded;
  let current := get "current_profile" (JStr "default") in
  let d := match loaded !! "statistics" with
           | Some _ => loaded
           | None => <["statistics" := default_statistics]> loaded
           end in
  (* create_play_tab *)
  version ← (if truthy (selected_version p) then as_str (selected_version p)
             else Some "");
  mod_loader ← as_str (selected_mod_loader p);
  user ← as_str (username p);
  (* create_servers_tab *)
  ip ← as_str (server_ip p);
  port ← as_str (server_port p);
  (* create_statistics_tab *)
  stats_lines ← statistics_lines cat d;
  (* create_settings_tab *)
  java ← as_str (java_path p);
  ram ← as_int (allocated_ram p);
  width ← as_int (window_width p);
  height ← as_int (window_height p);
  full ← as_bool (fullscreen p);
  jvm ← as_str (custom_jvm_args p);
  theme_name ← as_str (theme p);
  let w := mkWidgets version mod_loader user java ram theme_name
             (Some width) (Some height) (Some full)
             (Some (jvm +:+ String PyStr.newline ""))
             (Some ip) (Some port) in
  let l := mkLauncher d p (list_to_set favorites) recent w files in
  let a := mkApp l current (list_to_set disabled) (list_to_set packs)
             [] [] "" [] [] [] stats_lines in
  a ← load_saved_servers a;
  load_profiles_list a.

(** ** Concrete windows used in the examples *)

(** The window around a launcher, with empty lists. *)
Definition app_of (l : Launcher) : App :=
  mkApp l (JStr "default") ∅ ∅ [] [] "" [] [] [] [].

(** The window of a launcher whose settings hold the given saved servers,
    shown in the list box. *)
Definition app_with_servers (servers : list string) (l : Launcher) : App :=
  set_saved_servers_listbox servers
    (app_of (set_settings {[ "saved_servers" := JArr (JStr <$> servers) ]} l)).

(** The window of a launcher whose settings hold the given profiles, with
    their names in the list box. *)
Definition app_with_profiles (profiles : list (string * Json)) (l : Launcher)
  : App :=
  set_profiles_listbox (py_sorted (fst <$> profiles))
    (app_of (set_settings {[ "profiles" := JObj profiles ]} l)).

(** A catalogue of two releases on a disk that holds one of them and a
    Fabric version. *)
Definition sample_catalogue : Catalogue :=
  mkCatalogue (Some [ ("1.20.1", "release"); ("1.19.4", "release") ])
              (Some [ "1.20.1"; "fabric-1.20.1"; "notes.txt" ])
              (λ name, negb (String.eqb name "notes.txt")).

(** A profile as [save_profile] writes it. *)
Definition sample_profile : Json :=
  JObj [ ("version", JStr "1.19.4"); ("ram", JInt 2048);
         ("mod_loader", JStr "vanilla"); ("username", JStr "Alex");
         ("created", JStr "2024-01-01T10:00:00") ].

(** A settings file written by hand, with a saved server and two
    profiles. *)
Definition sample_files : gmap string (gmap string Json) :=
  {[ settings_file :=
       list_to_map
         [ ("saved_servers", JArr [JStr "mc.example.org:25565"]);
           ("profiles", JObj [ ("redstone", sample_profile);
                               ("builder", sample_profile) ]) ] ]}.

(** * Properties *)

(** ** Python strings *)

Section PyStrFacts.
Import PyStr.

Lemma nonempty_false s : nonempty s = false ↔ s = "".
Proof. by destruct s. Qed.

Lemma rstrip_cons c s :
  rstrip (String c s) =
  if isspace c && negb (nonempty (rstrip s)) then "" else String c (rstrip s).
Proof. reflexivity. Qed.

(** A leading blank does not change what [strip] returns. *)
Lemma strip_cons_space c s : isspace c = true → strip (String c s) = strip s.
Proof.
  intros Hc. unfold strip. rewrite rstrip_cons, Hc. simpl andb.
  destruct (rstrip s) as [|d r] eqn:E; simpl; [done|]. by rewrite Hc.
Qed.

Lemma any_digit_lstrip s : any_digit (lstrip s) = true → any_digit s = true.
Proof.
  induction s as [|c r IH]; simpl; [done|].
  destruct (isspace c); simpl; [|done].
  intros H. rewrite (IH H). apply orb_true_r.
Qed.

Lemma any_digit_rstrip s : any_digit (rstrip s) = true → any_digit s = true.
Proof.
  induction s as [|c r IH]; [done|].
  rewrite rstrip_cons.
  destruct (isspace c && negb (nonempty (rstrip r))); simpl; [done|].
  destruct (isdigit c); simpl; [done|]. exact IH.
Qed.

(** Trimming cannot create a digit. *)
Lemma any_digit_strip s : any_digit s = false → any_digit (strip s) = false.
Proof.
  intros H. destruct (any_digit (strip s)) eqn:E; [|done].
  apply any_digit_lstrip, any_digit_rstrip in E. congruence.
Qed.

Lemma split_lines_cons s : ∃ h t, split_lines s = h :: t.
Proof.
  induction s as [|c r (h & t & IH)]; simpl; [by eauto|].
  destruct (Ascii.eqb c newline); [by eauto|]. rewrite IH. by eauto.
Qed.

End PyStrFacts.

(** The lines of a text after trimming, blank ones dropped: head and tail. *)
Lemma custom_lines_split (h : string) (t : list string) :
  List.filter PyStr.nonempty (PyStr.strip <$> (h :: t)) =
  (if PyStr.nonempty (PyStr.strip h) then [PyStr.strip h] else [])
  ++ List.filter PyStr.nonempty (PyStr.strip <$> t).
Proof. simpl. by destruct (PyStr.nonempty (PyStr.strip h)). Qed.

Lemma custom_lines_cons_space c s :
  PyStr.isspace c = true → custom_lines (String c s) = custom_lines s.
Proof.
  intros Hc. unfold custom_lines. simpl PyStr.split_lines.
  destruct (Ascii.eqb c PyStr.newline) eqn:En.
  - reflexivity.
  - destruct (split_lines_cons s) as (h & t & E). rewrite E.
    rewrite !custom_lines_split. by rewrite strip_cons_space.
Qed.

Lemma custom_lines_lstrip s : custom_lines (PyStr.lstrip s) = custom_lines s.
Proof.
  induction s as [|c r IH]; simpl; [done|].
  destruct (PyStr.isspace c) eqn:Hc; [|done].
  by rewrite custom_lines_cons_space.
Qed.

(** Trimming the right end changes neither the trimmed first line nor the
    non-blank lines after it. *)
Lemma split_lines_rstrip s :
  ∃ h t h' t',
    PyStr.split_lines s = h :: t ∧
    PyStr.split_lines (PyStr.rstrip s) = h' :: t' ∧
    PyStr.rstrip h' = PyStr.rstrip h ∧
    List.filter PyStr.nonempty (PyStr.strip <$> t') =
    List.filter PyStr.nonempty (PyStr.strip <$> t).
Proof.
  induction s as [|c r (h & t & h' & t' & Es & Er & Hh & Ht)].
  { exists "", [], "", []. by simpl. }
  rewrite rstrip_cons. simpl PyStr.split_lines at 1. rewrite Es.
  destruct (PyStr.isspace c && negb (PyStr.nonempty (PyStr.rstrip r))) eqn:Eb.
  - apply andb_true_iff in Eb as [Hc Hr].
    apply negb_true_iff, nonempty_false in Hr.
    rewrite Hr in Er. simpl in Er. injection Er as <- <-.
    simpl in Hh, Ht.
    destruct (Ascii.eqb c PyStr.newline).
    + exists "", (h :: t), "", []. repeat split; try done.
      rewrite custom_lines_split, <- Ht. unfold PyStr.strip. by rewrite <- Hh.
    + exists (String c h), t, "", []. repeat split; try done.
      rewrite rstrip_cons, <- Hh, Hc. done.
  - simpl PyStr.split_lines. rewrite Er.
    destruct (Ascii.eqb c PyStr.newline).
    + exists "", (h :: t), "", (h' :: t'). repeat split; try done.
      rewrite !custom_lines_split, Ht. unfold PyStr.strip. by rewrite Hh.
    + exists (String c h), t, (String c h'), t'. repeat split; try done.
      by rewrite !rstrip_cons, Hh.
Qed.

Lemma custom_lines_rstrip s : custom_lines (PyStr.rstrip s) = custom_lines s.
Proof.
  destruct (split_lines_rstrip s) as (h & t & h' & t' & Es & Er & Hh & Ht).
  unfold custom_lines. rewrite Es, Er, !custom_lines_split, Ht.
  unfold PyStr.strip. by rewrite Hh.
Qed.

(** Trimming the whole text first, as [launch] does with the widget's
    content, does not change the lines that are kept. *)
Lemma custom_lines_strip s : custom_lines (PyStr.strip s) = custom_lines s.
Proof. unfold PyStr.strip. by rewrite custom_lines_lstrip, custom_lines_rstrip. Qed.

Lemma custom_lines_blank s :
  PyStr.nonempty (PyStr.strip s) = false → custom_lines s = [].
Proof.
  intros H. apply nonempty_false in H.
  by rewrite <- custom_lines_strip, H.
Qed.

(** ** Recent versions *)

Lemma py_in_spec x (xs : list string) : py_in x xs = true ↔ x ∈ xs.
Proof.
  unfold py_in. rewrite existsb_exists. split.
  - intros (y & Hy & E). apply String.eqb_eq in E as ->. by apply list_elem_of_In.
  - intros H. exists x. split; [by apply list_elem_of_In|apply String.eqb_refl].
Qed.

(** [remove] takes out the first occurrence, whatever follows it. *)
Lemma py_remove_split x (front back : list string) :
  x ∉ front → py_remove x (front ++ x :: back) = front ++ back.
Proof.
  induction front as [|y r IH]; simpl.
  - by rewrite String.eqb_refl.
  - rewrite not_elem_of_cons. intros [Hne Hr].
    destruct (String.eqb_spec x y); [done|]. by rewrite IH.
Qed.

Lemma length_last10 {A} (xs : list A) : (length (last10 xs) ≤ 10)%nat.
Proof. unfold last10. rewrite length_drop. lia. Qed.

Lemma last10_short {A} (xs : list A) : (length xs ≤ 10)%nat → last10 xs = xs.
Proof.
  intros H. unfold last10.
  replace (length xs - 10)%nat with 0%nat by lia. apply drop_0.
Qed.

Lemma NoDup_last10 {A} (xs : list A) : NoDup xs → NoDup (last10 xs).
Proof. intros H. exact (sublist_NoDup _ _ H (sublist_drop xs _)). Qed.

Lemma last_last10_snoc {A} (xs : list A) x : last (last10 (xs ++ [x])) = Some x.
Proof.
  unfold last10. rewrite length_app. simpl.
  rewrite drop_app_le by lia. apply last_snoc.
Qed.

Lemma add_recent_new x (xs : list string) :
  x ∉ xs → add_recent x xs = last10 (xs ++ [x]).
Proof.
  intros H. unfold add_recent.
  destruct (py_in x xs) eqn:E; [|done]. by apply py_in_spec in E.
Qed.

Lemma add_recent_old x (xs : list string) :
  x ∈ xs → add_recent x xs = last10 (py_remove x xs ++ [x]).
Proof.
  intros H. unfold add_recent. apply py_in_spec in H. by rewrite H.
Qed.

(** A listed version is taken out of its place and put at the end. *)
Lemma add_recent_moved x (xs : list string) :
  NoDup xs → x ∈ xs →
  ∃ front back,
    xs = front ++ x :: back ∧ (x ∉ front ++ back) ∧
    add_recent x xs = last10 (front ++ back ++ [x]).
Proof.
  intros Hnd Hin. destruct (list_elem_of_split _ _ Hin) as (front & back & ->).
  apply NoDup_app in Hnd as (_ & Hfront & Hback).
  apply NoDup_cons in Hback as [Hback _].
  assert (x ∉ front).
  { intros Hf. apply (Hfront _ Hf). by left. }
  exists front, back. split; [done|]. split.
  - rewrite elem_of_app. tauto.
  - rewrite add_recent_old by done. rewrite py_remove_split by done.
    by rewrite <- (assoc_L (++)).
Qed.

Lemma NoDup_snoc_fresh (xs : list string) x : NoDup xs → x ∉ xs → NoDup (xs ++ [x]).
Proof.
  intros Hnd Hx. apply NoDup_app. split; [done|]. split.
  - intros y Hy. rewrite list_elem_of_singleton. by intros ->.
  - apply NoDup_singleton.
Qed.

Lemma add_recent_NoDup x (xs : list string) : NoDup xs → NoDup (add_recent x xs).
Proof.
  intros Hnd. destruct (decide (x ∈ xs)) as [Hin|Hout].
  - destruct (add_recent_moved x xs Hnd Hin) as (front & back & -> & Hnot & ->).
    apply NoDup_last10. rewrite (assoc_L (++)).
    apply NoDup_snoc_fresh; [|done].
    apply NoDup_app in Hnd as (? & Hfb & Hb).
    apply NoDup_cons in Hb as [? ?]. apply NoDup_app.
    split; [done|]. split; [|done].
    intros y Hy Hyb. apply (Hfb y Hy). by right.
  - rewrite add_recent_new by done. by apply NoDup_last10, NoDup_snoc_fresh.
Qed.

Lemma last_add_recent x (xs : list string) : last (add_recent x xs) = Some x.
Proof.
  unfold add_recent. destruct (negb (py_in x xs)); apply last_last10_snoc.
Qed.

(** Along every run that starts from the empty list the invariant holds. *)
Lemma recent_after_invariant (launches : list string) :
  NoDup (recent_after launches) ∧ (length (recent_after launches) ≤ 10)%nat.
Proof.
  unfold recent_after.
  induction launches as [|v vs IH] using rev_ind; simpl.
  - split; [apply NoDup_nil_2|lia].
  - rewrite foldl_app. simpl. destruct IH as [IH _]. split.
    + by apply add_recent_NoDup.
    + apply length_last10.
Qed.

(** C9.  After every update of the recent-versions list, in every run that
    starts from the empty list of a fresh settings file, the list has at most
    ten entries, no duplicates, and the version just launched as its last
    entry; it is what [save_settings] persists, unshortened.  The update
    keeps any list free of duplicates that was so before: a version already
    listed is taken out of its place and put at the end, a new one is
    appended, and the oldest entries beyond ten are dropped. *)
Theorem C9_recent_versions_invariant (launch_version : string)
    (launches : list string) :
  let updated := add_recent launch_version (recent_after launches) in
  (length updated ≤ 10)%nat ∧
  NoDup updated ∧
  last updated = Some launch_version ∧
  last10 updated = updated ∧
  updated = recent_after (launches ++ [launch_version]) ∧
  (∀ recent : list string,
     (length (add_recent launch_version recent) ≤ 10)%nat ∧
     last (add_recent launch_version recent) = Some launch_version) ∧
  (∀ recent : list string,
     NoDup recent →
     NoDup (add_recent launch_version recent) ∧
     (launch_version ∈ recent →
        ∃ front back,
          recent = front ++ launch_version :: back ∧
          add_recent launch_version recent =
            last10 (front ++ back ++ [launch_version])) ∧
     (launch_version ∉ recent →
        add_recent launch_version recent =
          last10 (recent ++ [launch_version]))).
Proof.
  intros updated.
  assert (Hlen : (length updated ≤ 10)%nat) by apply length_last10.
  split; [done|]. split; [|split; [|split; [|split; [|split]]]].
  - apply add_recent_NoDup, recent_after_invariant.
  - apply last_add_recent.
  - by apply last10_short.
  - unfold recent_after. by rewrite foldl_app.
  - intros recent. split; [apply length_last10|apply last_add_recent].
  - intros recent Hnd. split; [by apply add_recent_NoDup|]. split.
    + intros Hin.
      destruct (add_recent_moved _ _ Hnd Hin) as (front & back & ? & _ & ?).
      eauto.
    + intros Hout. by apply add_recent_new.
Qed.

Lemma C9_recent_versions_invariant_witness :
  NoDup ["1.19.4"; "1.20.1"; "fabric-1.20.1"] ∧
  recent_after ["1.19.4"; "1.20.1"; "fabric-1.20.1"] =
    ["1.19.4"; "1.20.1"; "fabric-1.20.1"] ∧
  add_recent "1.20.1" ["1.19.4"; "1.20.1"; "fabric-1.20.1"] =
    ["1.19.4"; "fabric-1.20.1"; "1.20.1"] ∧
  NoDup (add_recent "1.20.1" ["1.19.4"; "1.20.1"; "fabric-1.20.1"]).
Proof.
  assert (Hnd : NoDup ["1.19.4"; "1.20.1"; "fabric-1.20.1"]).
  { apply (bool_decide_unpack _). vm_compute. exact I. }
  split; [exact Hnd|]. split; [reflexivity|]. split; [reflexivity|].
  destruct (C9_recent_versions_invariant "1.20.1"
              ["1.19.4"; "1.20.1"; "fabric-1.20.1"])
    as (_ & _ & _ & _ & _ & _ & Hkeep).
  exact (proj1 (Hkeep _ Hnd)).
Defined.

(** Without the invariant the update cannot restore it: [remove] takes out
    one occurrence only. *)
Example add_recent_keeps_old_duplicates :
  add_recent "1.20.1" ["1.20.1"; "1.20.1"] = ["1.20.1"; "1.20.1"].
Proof. reflexivity. Qed.

(** ** Settings *)

Lemma dom_settings_document l : dom (settings_document l) = saved_keys.
Proof. unfold settings_document. rewrite dom_list_to_map_L. reflexivity. Qed.

Lemma settings_document_unsaved l k :
  k ∉ saved_keys → settings_document l !! k = None.
Proof. rewrite <- (dom_settings_document l). apply not_elem_of_dom. Qed.

Lemma settings_save_settings l : settings (save_settings l) = settings_document l.
Proof. reflexivity. Qed.

Lemma disk_save_settings l :
  disk (save_settings l) !! settings_file = Some (settings_document l).
Proof. unfold save_settings, write_file. simpl. apply lookup_insert_eq. Qed.

(** What [save_settings_ui] leaves untouched. *)
Lemma save_settings_ui_frame l :
  ui (save_settings_ui l).1 = ui l ∧
  recent_versions (save_settings_ui l).1 = recent_versions l ∧
  favorite_versions (save_settings_ui l).1 = favorite_versions l.
Proof. unfold save_settings_ui. by repeat case_match. Qed.

(** When it completes, every widget was there and the settings dictionary is
    the fourteen-key literal. *)
Lemma save_settings_ui_done l l' :
  save_settings_ui l = (l', true) →
  (∃ p, l' = save_settings (set_prefs p l)) ∧
  (∃ width height full text ip port,
     window_width_var (ui l) = Some width ∧
     window_height_var (ui l) = Some height ∧
     fullscreen_var (ui l) = Some full ∧
     jvm_text_widget (ui l) = Some text ∧
     server_ip_var (ui l) = Some ip ∧
     server_port_var (ui l) = Some port).
Proof.
  unfold save_settings_ui. intros H. repeat case_match; simplify_eq.
  split; [by eexists|]. by repeat eexists.
Qed.

(** When a widget is missing, nothing is written: neither the settings
    dictionary nor the disk changes. *)
Lemma save_settings_ui_raised l l' :
  save_settings_ui l = (l', false) →
  settings l' = settings l ∧ disk l' = disk l ∧
  recent_versions l' = recent_versions l.
Proof. unfold save_settings_ui. intros H. by repeat case_match; simplify_eq. Qed.

(** ** The paths of a launch *)

(** The checks can only end in one of the three validation boxes. *)
Lemma validate_failure w o :
  validate w = inl o →
  o = NoVersion ∨ o = InvalidVersion (PyStr.strip (version_var w)) ∨
  o = NoUsername.
Proof. unfold validate. intros H. repeat case_match; simplify_eq; auto. Qed.

(** A launch that started the process ends with [save_settings]. *)
Lemma launch_minecraft_launched env l l' v opts pid :
  launch_minecraft env l = (l', Launched v opts pid) →
  ∃ l2, l' = save_settings l2.
Proof.
  unfold launch_minecraft, launch. intros H.
  repeat case_match; simplify_eq; try by eexists.
  match goal with
  | Hv : validate _ = inl _ |- _ =>
      by destruct (validate_failure _ _ Hv) as [?|[?|?]]
  end.
Qed.

(** C10.  [save_settings] rebinds the settings dictionary to a dictionary
    with exactly the fourteen fixed keys and writes that dictionary to the
    settings file; [statistics], [profiles], [saved_servers],
    [disabled_mods], [enabled_resourcepacks] and [current_profile] are not
    in it, whatever the dictionary held before.  In particular the
    statistics that a successful launch has just stored are gone when the
    launch returns. *)
Theorem C10_save_settings_fixed_keys (env : Env) (l : Launcher) :
  let saved := save_settings l in
  dom (settings saved) = saved_keys ∧
  size (settings saved) = 14%nat ∧
  disk saved !! settings_file = Some (settings saved) ∧
  settings saved !! "statistics" = None ∧
  settings saved !! "profiles" = None ∧
  settings saved !! "saved_servers" = None ∧
  settings saved !! "disabled_mods" = None ∧
  settings saved !! "enabled_resourcepacks" = None ∧
  settings saved !! "current_profile" = None ∧
  match launch_minecraft env l with
  | (l', Launched _ _ _) =>
      dom (settings l') = saved_keys ∧
      disk l' !! settings_file = Some (settings l') ∧
      settings l' !! "statistics" = None
  | _ => True
  end.
Proof.
  intros saved. subst saved. rewrite (settings_save_settings l).
  split; [apply dom_settings_document|].
  split; [by rewrite <- size_dom, dom_settings_document|].
  split; [apply disk_save_settings|].
  repeat (split; [by apply settings_document_unsaved|]).
  destruct (launch_minecraft env l) as [l' o] eqn:E.
  destruct o; try done.
  destruct (launch_minecraft_launched _ _ _ _ _ _ E) as (l2 & ->).
  rewrite (settings_save_settings l2).
  split; [apply dom_settings_document|].
  split; [apply disk_save_settings|].
  by apply settings_document_unsaved.
Qed.

(** ** Import and export *)

(** Export writes the settings dictionary as it is, every key included. *)
Lemma export_settings_verbatim file_path l :
  PyStr.nonempty file_path = true →
  disk (export_settings file_path l) !! file_path = Some (settings l) ∧
  settings (export_settings file_path l) = settings l.
Proof.
  intros H. unfold export_settings. rewrite H. split; [|done].
  unfold write_file. simpl. apply lookup_insert_eq.
Qed.

(** Import merges every imported key into the settings dictionary, then
    [save_settings] rebinds the dictionary: whatever is not one of the
    fourteen keys is gone, from memory and from the settings file. *)
Lemma import_settings_drops env file_path imported l k :
  PyStr.nonempty file_path = true → k ∉ saved_keys →
  let l' := import_settings env file_path (Some imported) l in
  settings l' !! k = None ∧
  ∃ d, disk l' !! settings_file = Some d ∧ d !! k = None.
Proof.
  intros Hp Hk. unfold import_settings. rewrite Hp. cbv zeta.
  match goal with |- context [save_settings ?x] => generalize x end.
  intros l2. rewrite (settings_save_settings l2). split.
  - by apply settings_document_unsaved.
  - eexists. split; [apply disk_save_settings|by apply settings_document_unsaved].
Qed.

(** C8.  An unknown key does not survive an import: importing a file that
    holds ["nickname_color"] merges the key into the settings dictionary,
    and the save that ends [import_settings] leaves it neither in the
    dictionary nor in the settings file; an export made afterwards does not
    contain it.  Exporting by itself writes every key of the dictionary. *)
Theorem C8_import_drops_unknown_key :
  let env := Sample.good_world ∅ in
  let before := Sample.launcher "" "" in
  let imported : gmap string Json :=
    {[ "nickname_color" := JStr "red" ]} in
  let after := import_settings env "backup.json" (Some imported) before in
  merged_settings imported before !! "nickname_color" = Some (JStr "red") ∧
  settings after !! "nickname_color" = None ∧
  (∃ d, disk after !! settings_file = Some d ∧ d !! "nickname_color" = None) ∧
  (∃ d, disk (export_settings "export.json" after) !! "export.json" = Some d ∧
        d !! "nickname_color" = None) ∧
  disk (export_settings "export.json" (set_settings imported before))
    !! "export.json" = Some imported.
Proof.
  cbv zeta. split; [by vm_compute|].
  assert (Hk : "nickname_color" ∉ saved_keys) by (by vm_compute).
  destruct (import_settings_drops (Sample.good_world ∅) "backup.json"
              {[ "nickname_color" := JStr "red" ]} (Sample.launcher "" "")
              "nickname_color" eq_refl Hk) as [Hs Hd].
  split; [exact Hs|]. split; [exact Hd|]. split.
  - eexists. split; [apply export_settings_verbatim; reflexivity|exact Hs].
  - apply export_settings_verbatim. reflexivity.
Qed.

(** ** The options of a launch *)

(** With the text widget in place the JVM arguments are the two memory
    flags followed by the lines of the widget's text. *)
Lemma jvm_arguments_widget l text :
  jvm_text_widget (ui l) = Some text →
  jvm_arguments l =
  Ret ([ "-Xmx" +:+ PyStr.of_Z (ram_var (ui l)) +:+ "M";
         "-Xms" +:+ PyStr.of_Z (ram_var (ui l) `div` 2) +:+ "M" ]
       ++ custom_lines text).
Proof.
  intros H. unfold jvm_arguments. rewrite H.
  destruct (PyStr.nonempty (PyStr.strip text)) eqn:E.
  - by rewrite custom_lines_strip.
  - by rewrite (custom_lines_blank _ E).
Qed.

(** Without the widget the attribute is used; a string is split the same
    way. *)
Lemma jvm_arguments_attribute l s :
  jvm_text_widget (ui l) = None → custom_jvm_args (prefs l) = JStr s →
  jvm_arguments l =
  Ret ([ "-Xmx" +:+ PyStr.of_Z (ram_var (ui l)) +:+ "M";
         "-Xms" +:+ PyStr.of_Z (ram_var (ui l) `div` 2) +:+ "M" ]
       ++ custom_lines s).
Proof.
  intros H Hs. unfold jvm_arguments. rewrite H, Hs. simpl.
  destruct s; [done|]. done.
Qed.

Lemma window_options_widgets l options width height full :
  window_width_var (ui l) = Some width →
  window_height_var (ui l) = Some height →
  fullscreen_var (ui l) = Some full →
  window_options l options =
  Ret (<["resolutionHeight" := JStr (PyStr.of_Z height)]>
         (<["resolutionWidth" := JStr (PyStr.of_Z width)]>
            (<["customResolution" := JBool true]> options))).
Proof.
  intros Hw Hh Hf. unfold window_options. rewrite Hw, Hh, Hf.
  by destruct full.
Qed.

(** The server block touches the keys [server] and [port] only. *)
Lemma server_options_other l options k :
  k ≠ "server" → k ≠ "port" → server_options l options !! k = options !! k.
Proof.
  intros H1 H2. unfold server_options.
  repeat case_match; by rewrite ?lookup_insert_ne.
Qed.

Lemma server_options_widgets l options host port :
  server_ip_var (ui l) = Some host →
  server_port_var (ui l) = Some port →
  PyStr.nonempty (PyStr.strip host) = true →
  server_options l options !! "server" = Some (JStr (PyStr.strip host)) ∧
  server_options l options !! "port" =
    if PyStr.nonempty (PyStr.strip port)
    then Some (JStr (PyStr.strip port))
    else options !! "port".
Proof.
  intros Hi Hp Hne. unfold server_options. rewrite Hi, Hp. simpl.
  rewrite Hne. destruct (PyStr.nonempty (PyStr.strip port)).
  - rewrite lookup_insert_eq. rewrite lookup_insert_ne by done.
    by rewrite lookup_insert_eq.
  - rewrite lookup_insert_eq. by rewrite lookup_insert_ne.
Qed.

(** The options built once every widget exists: no exception, nothing
    outside the model. *)
Lemma build_options_widgets env username l width height full text ip port :
  window_width_var (ui l) = Some width →
  window_height_var (ui l) = Some height →
  fullscreen_var (ui l) = Some full →
  jvm_text_widget (ui l) = Some text →
  server_ip_var (ui l) = Some ip →
  server_port_var (ui l) = Some port →
  ∃ base,
    build_options env username l = Ret (server_options l base) ∧
    base !! "username" = Some (JStr username) ∧
    base !! "jvmArguments" =
      Some (JArr (JStr <$>
        [ "-Xmx" +:+ PyStr.of_Z (ram_var (ui l)) +:+ "M";
          "-Xms" +:+ PyStr.of_Z (ram_var (ui l) `div` 2) +:+ "M" ]
        ++ custom_lines text)) ∧
    base !! "executablePath" = Some (JStr (java_path_var (ui l))) ∧
    base !! "server" = generate_test_options env !! "server" ∧
    base !! "port" = generate_test_options env !! "port".
Proof.
  intros Hw Hh Hf Ht Hi Hp. unfold build_options.
  rewrite (jvm_arguments_widget _ _ Ht). simpl.
  erewrite window_options_widgets by done. simpl.
  eexists. split; [done|].
  repeat split;
    repeat (rewrite lookup_insert_ne by done); by rewrite ?lookup_insert_eq.
Qed.

(** The first launch recorded in an empty statistics dictionary. *)
Lemma update_statistics_fresh now launch_version :
  update_statistics now launch_version (JObj []) =
  Ret (JObj [ ("total_launches", JInt 1);
              ("last_launch", JStr now);
              ("version_counts", JObj [(launch_version, JInt 1)]);
              ("most_used_version", JStr launch_version) ]).
Proof.
  unfold update_statistics. simpl. rewrite String.eqb_refl. reflexivity.
Qed.

Lemma validate_ok w version username :
  validate w = inr (version, username) →
  version = PyStr.strip (version_var w) ∧
  username = PyStr.strip (username_var w) ∧
  PyStr.any_digit version = true ∧
  PyStr.nonempty username = true.
Proof.
  unfold validate. intros H. repeat case_match; simplify_eq.
  repeat split; by apply negb_false_iff.
Qed.

(** Every path of [launch_minecraft] once the checks have passed and
    [save_settings_ui] has completed.  The options are built without an
    exception; the statistics found are always the empty default, because
    [save_settings_ui] has just rebound the settings dictionary. *)
Lemma launch_minecraft_ready env l version username l1 :
  validate (ui l) = inr (version, username) →
  save_settings_ui l = (l1, true) →
  ∃ options stats,
    build_options env username l1 = Ret options ∧
    update_statistics (now env)
      (find_launch_version env (mod_loader_var (ui l)) version) (JObj [])
      = Ret stats ∧
    let launch_version :=
      find_launch_version env (mod_loader_var (ui l)) version in
    let l2 := set_recent_versions
                (add_recent launch_version (recent_versions l)) l1 in
    launch_minecraft env l =
      if negb (installed env version) then (l1, VersionNotInstalled version)
      else
        match get_minecraft_command env launch_version options with
        | CommandVersionNotFound => (l2, VersionNotFound launch_version options)
        | CommandError => (l2, CommandCreationFailed launch_version options)
        | CommandOk command =>
            match Popen env command with
            | PopenFileNotFound => (l2, JavaNotFound launch_version options)
            | PopenError => (l2, ProcessStartFailed launch_version options)
            | PopenOk pid =>
                (save_settings
                   (set_settings (<["statistics" := stats]> (settings l2)) l2),
                 Launched launch_version options pid)
            end
        end.
Proof.
  intros Hv Hs.
  destruct (save_settings_ui_done _ _ Hs)
    as [[p Hl1] (width & height & full & text & ip & port & W)].
  destruct W as (Hw & Hh & Hf & Ht & Hi & Hp).
  pose proof (save_settings_ui_frame l) as (Hui & Hrecent & _).
  rewrite Hs in Hui, Hrecent. simpl in Hui, Hrecent.
  destruct (build_options_widgets env username l1 width height full text ip port)
    as (base & Hb & _); rewrite ?Hui; try done.
  eexists _, _. split; [exact Hb|]. split; [apply update_statistics_fresh|].
  cbv zeta. unfold launch_minecraft. rewrite Hv, Hs. unfold launch.
  rewrite Hb, Hui, Hrecent.
  destruct (negb (installed env version)); [done|].
  destruct (get_minecraft_command _ _ _); try done.
  destruct (Popen env command); try done.
  assert (Hnone : settings l1 !! "statistics" = None).
  { rewrite Hl1. rewrite (settings_save_settings (set_prefs p l)).
    by apply settings_document_unsaved. }
  simpl settings at 1. rewrite Hnone. simpl default.
  by rewrite update_statistics_fresh.
Qed.

(** A launch never leaves the model, and never ends in the catch-all
    handler. *)
Lemma launch_minecraft_modelled env l :
  (launch_minecraft env l).2 ≠ OutsideModel ∧
  (launch_minecraft env l).2 ≠ UnexpectedError.
Proof.
  destruct (validate (ui l)) as [o|[version username]] eqn:Hv.
  { unfold launch_minecraft. rewrite Hv. simpl.
    by destruct (validate_failure _ _ Hv) as [->|[->| ->]]. }
  destruct (save_settings_ui l) as [l1 []] eqn:Hs.
  - destruct (launch_minecraft_ready env l _ _ _ Hv Hs)
      as (options & stats & _ & _ & ->).
    by repeat case_match.
  - unfold launch_minecraft. by rewrite Hv, Hs.
Qed.

(** The backend is reached exactly when the checks pass, every widget
    exists and the base version is installed; it is then given the version
    found by the variant search and the options just built. *)
Lemma resolved_ready env l version username l1 :
  validate (ui l) = inr (version, username) →
  save_settings_ui l = (l1, true) →
  installed env version = true →
  ∃ options,
    build_options env username l1 = Ret options ∧
    resolved (launch_minecraft env l).2 =
      Some (find_launch_version env (mod_loader_var (ui l)) version, options).
Proof.
  intros Hv Hs Hi.
  destruct (launch_minecraft_ready env l _ _ _ Hv Hs)
    as (options & stats & Hb & _ & ->).
  exists options. split; [done|]. rewrite Hi. simpl.
  by repeat case_match.
Qed.

Lemma resolved_inv env l v options :
  resolved (launch_minecraft env l).2 = Some (v, options) →
  ∃ version username l1,
    validate (ui l) = inr (version, username) ∧
    save_settings_ui l = (l1, true) ∧
    installed env version = true ∧
    v = find_launch_version env (mod_loader_var (ui l)) version ∧
    build_options env username l1 = Ret options.
Proof.
  intros H.
  destruct (validate (ui l)) as [o|[version username]] eqn:Hv.
  { unfold launch_minecraft in H. rewrite Hv in H. simpl in H.
    by destruct (validate_failure _ _ Hv) as [->|[->| ->]]. }
  destruct (save_settings_ui l) as [l1 []] eqn:Hs.
  - destruct (installed env version) eqn:Hi.
    + destruct (resolved_ready env l _ _ _ Hv Hs Hi) as (o & Hb & Hr).
      rewrite Hr in H. simplify_eq. by eexists _, _, _.
    + destruct (launch_minecraft_ready env l _ _ _ Hv Hs)
        as (o & stats & _ & _ & E).
      rewrite E, Hi in H. done.
  - unfold launch_minecraft in H. by rewrite Hv, Hs in H.
Qed.

(** ** The claims about resolution *)

(** C1, as the code has it.  Once the checks have passed and every widget
    exists, the launch ends in "Version Not Installed" exactly when the
    trimmed base version is not installed: the test is made on the base
    version, before the variant search.  A version chosen by the search that
    is not installed forces that failure, and when the base version is
    installed the launch goes on to the backend with the chosen version,
    which is installed. *)
Theorem C1_not_installed_iff_base_missing (env : Env) (l : Launcher)
    (version username : string) :
  validate (ui l) = inr (version, username) →
  (save_settings_ui l).2 = true →
  let outcome := (launch_minecraft env l).2 in
  let effective := find_launch_version env (mod_loader_var (ui l)) version in
  (outcome = VersionNotInstalled version ↔ installed env version = false) ∧
  (error_class outcome = Some VersionNotInstalledError ↔
     installed env version = false) ∧
  (installed env effective = false → outcome = VersionNotInstalled version) ∧
  (installed env version = true →
     installed env effective = true ∧
     ∃ options, resolved outcome = Some (effective, options)).
Proof.
  intros Hv Hs outcome effective.
  destruct (save_settings_ui l) as [l1 ok] eqn:Hs'. simpl in Hs. subst ok.
  assert (Heff : installed env version = true → installed env effective = true).
  { intros Hi. subst effective. unfold find_launch_version.
    destruct (negb _); [|done]. simpl.
    repeat (case_match; try done). }
  destruct (installed env version) eqn:Hi.
  - destruct (resolved_ready env l _ _ _ Hv Hs' Hi) as (options & _ & Hr).
    fold outcome in Hr. fold effective in Hr.
    split; [|split; [|split]].
    + split; [|done]. intros E. by rewrite E in Hr.
    + split; [|done]. intros E. destruct outcome; simplify_eq.
    + intros E. rewrite Heff in E; done.
    + intros _. split; [by apply Heff|by eexists].
  - destruct (launch_minecraft_ready env l _ _ _ Hv Hs')
      as (options & stats & _ & _ & E).
    subst outcome. rewrite E, Hi. simpl. done.
Qed.

Lemma C1_not_installed_iff_base_missing_witness :
  let env := Sample.good_world {[ "1.20.1"; "fabric-1.20.1" ]} in
  let l := Sample.launcher "" "" in
  validate (ui l) = inr ("1.20.1", "Steve") ∧
  (save_settings_ui l).2 = true ∧
  ((launch_minecraft env l).2 = VersionNotInstalled "1.20.1" ↔
   installed env "1.20.1" = false).
Proof.
  cbv zeta. split; [reflexivity|]. split; [reflexivity|].
  exact (proj1 (C1_not_installed_iff_base_missing
                  (Sample.good_world {[ "1.20.1"; "fabric-1.20.1" ]})
                  (Sample.launcher "" "") "1.20.1" "Steve" eq_refl eq_refl)).
Defined.

(** C1, as stated, fails on the specification's own scenario: with only
    ["fabric-1.20.1"] installed the variant search would choose it, and it is
    installed, yet the launch ends in "Version Not Installed" for the base
    version and never reaches the backend. *)
Lemma C1_counterexample :
  let env := Sample.good_world {[ "fabric-1.20.1" ]} in
  let l := Sample.launcher "" "" in
  validate (ui l) = inr ("1.20.1", "Steve") ∧
  mod_loader_var (ui l) = "fabric" ∧
  find_launch_version env "fabric" "1.20.1" = "fabric-1.20.1" ∧
  installed env "fabric-1.20.1" = true ∧
  (launch_minecraft env l).2 = VersionNotInstalled "1.20.1" ∧
  resolved (launch_minecraft env l).2 = None.
Proof. by vm_compute. Qed.

(** The window block leaves every other key alone. *)
Lemma window_options_other l options options' k :
  window_options l options = Ret options' →
  k ≠ "customResolution" → k ≠ "resolutionWidth" → k ≠ "resolutionHeight" →
  options' !! k = options !! k.
Proof.
  unfold window_options. intros H H1 H2 H3.
  assert (Hres : ∀ w h,
    (<["resolutionHeight" := JStr h]>
       (<["resolutionWidth" := JStr w]>
          (<["customResolution" := JBool true]> options))) !! k
    = options !! k).
  { intros w h. by rewrite !lookup_insert_ne. }
  destruct (default false _).
  - destruct (match window_width_var (ui l) with Some _ => _ | None => _ end)
      as [w| |]; simpl in H; try done.
    destruct (match window_height_var (ui l) with Some _ => _ | None => _ end)
      as [h| |]; simpl in H; try done.
    simplify_eq. apply Hres.
  - repeat case_match; simplify_eq; try done; apply Hres.
Qed.

(** Two distinct entries in front of a list each occur once more than in
    the list. *)
Lemma count_occ_pair (a b : string) (rest : list string) :
  a ≠ b →
  count_occ string_dec ([a; b] ++ rest) a = S (count_occ string_dec rest a) ∧
  count_occ string_dec ([a; b] ++ rest) b = S (count_occ string_dec rest b).
Proof.
  intros Hne. simpl.
  destruct (string_dec a a), (string_dec b a), (string_dec a b),
    (string_dec b b); try done; by subst.
Qed.

(** C2.  With [R] megabytes selected the JVM arguments are ["-Xmx{R}M"],
    then ["-Xms{R//2}M"] with [R//2] the floor of the half, then the lines of
    the custom-arguments text (the text widget's content, or the saved
    string when there is no widget): every line trimmed, the blank ones left
    out, in their order.  The two memory flags are distinct and are
    generated once each; a custom line is kept even when it repeats one of
    them, so a flag occurs once more than it occurs among the custom lines.
    These are the arguments put into the options under [jvmArguments]. *)
Theorem C2_jvm_arguments_assembly (l : Launcher) (R : Z) (text : string) :
  ram_var (ui l) = R →
  jvm_text_widget (ui l) = Some text ∨
  jvm_text_widget (ui l) = None ∧ custom_jvm_args (prefs l) = JStr text →
  let xmx := "-Xmx" +:+ PyStr.of_Z R +:+ "M" in
  let xms := "-Xms" +:+ PyStr.of_Z (R `div` 2) +:+ "M" in
  let customs :=
    List.filter PyStr.nonempty (PyStr.strip <$> PyStr.split_lines text) in
  jvm_arguments l = Ret ([xmx; xms] ++ customs) ∧
  2 * (R `div` 2) ≤ R < 2 * (R `div` 2) + 2 ∧
  xmx ≠ xms ∧
  count_occ string_dec ([xmx; xms] ++ customs) xmx
    = S (count_occ string_dec customs xmx) ∧
  count_occ string_dec ([xmx; xms] ++ customs) xms
    = S (count_occ string_dec customs xms) ∧
  (∀ env username options,
     build_options env username l = Ret options →
     options !! "jvmArguments" = Some (JArr (JStr <$> [xmx; xms] ++ customs))).
Proof.
  intros HR Ht xmx xms customs.
  assert (Hj : jvm_arguments l = Ret ([xmx; xms] ++ customs)).
  { destruct Ht as [Ht|[Ht Hs]].
    - rewrite (jvm_arguments_widget _ _ Ht), HR. done.
    - rewrite (jvm_arguments_attribute _ _ Ht Hs), HR. done. }
  assert (Hne : xmx ≠ xms).
  { subst xmx xms. simpl. intros E. simplify_eq. }
  split; [done|]. split.
  { pose proof (Z.mod_pos_bound R 2 ltac:(lia)).
    pose proof (Z.div_mod R 2 ltac:(lia)). lia. }
  split; [done|]. split; [|split].
  - by apply (count_occ_pair xmx xms customs).
  - by apply (count_occ_pair xmx xms customs).
  - intros env username options Hb. unfold build_options in Hb.
    rewrite Hj in Hb. simpl in Hb.
    destruct (window_options l _) as [o'| |] eqn:Hw; simplify_eq/=.
    rewrite server_options_other by done.
    rewrite (window_options_other _ _ _ _ Hw) by done.
    rewrite lookup_insert_ne by done. by rewrite lookup_insert_eq.
Qed.

Lemma C2_jvm_arguments_assembly_witness :
  ram_var (ui (Sample.launcher "" "")) = 4096 ∧
  jvm_arguments (Sample.launcher "" "") =
    Ret [ "-Xmx4096M"; "-Xms2048M"; "-XX:+UseG1GC" ].
Proof.
  split; [reflexivity|].
  exact (proj1 (C2_jvm_arguments_assembly (Sample.launcher "" "") 4096 _
                  eq_refl (or_introl eq_refl))).
Defined.

(** A custom line that repeats a memory flag is kept. *)
Example jvm_arguments_repeated_flag :
  jvm_arguments
    (Sample.request_with_jvm_text ("-Xmx4096M" +:+ String PyStr.newline ""))
  = Ret [ "-Xmx4096M"; "-Xms2048M"; "-Xmx4096M" ].
Proof. reflexivity. Qed.

(** C3, as the code has it.  The variant search runs only behind the test
    that the base version is installed.  Once the checks have passed and
    every widget exists, with a mod loader other than vanilla: when the base
    version is not installed the launch ends in "Version Not Installed",
    whichever composites are installed; when it is installed the launch
    reaches the backend with ["<loader>-<base>"] if that is installed,
    whatever else is, ["<base>-<loader>"] included, and with
    ["<base>-<loader>"] if that is installed and ["<loader>-<base>"] is
    not: the first installed one of the two, in that order. *)
Theorem C3_first_installed_variant_wins (env : Env) (l : Launcher)
    (version username : string) :
  validate (ui l) = inr (version, username) →
  (save_settings_ui l).2 = true →
  mod_loader_var (ui l) ≠ "vanilla" →
  let mod_loader := mod_loader_var (ui l) in
  let loader_base := mod_loader +:+ "-" +:+ version in
  let base_loader := version +:+ "-" +:+ mod_loader in
  let outcome := (launch_minecraft env l).2 in
  (installed env version = false →
     outcome = VersionNotInstalled version ∧ resolved outcome = None) ∧
  (installed env version = true →
     installed env loader_base = true →
     find_launch_version env mod_loader version = loader_base ∧
     ∃ options, resolved outcome = Some (loader_base, options)) ∧
  (installed env version = true →
     installed env loader_base = false →
     installed env base_loader = true →
     find_launch_version env mod_loader version = base_loader ∧
     ∃ options, resolved outcome = Some (base_loader, options)).
Proof.
  intros Hv Hs Hne mod_loader loader_base base_loader outcome.
  destruct (save_settings_ui l) as [l1 ok] eqn:Hs'. simpl in Hs. subst ok.
  assert (Hf : find_launch_version env mod_loader version =
               first_installed env [loader_base; base_loader] version).
  { unfold find_launch_version.
    by destruct (String.eqb_spec mod_loader "vanilla"). }
  split; [|split].
  - intros Hi.
    destruct (launch_minecraft_ready env l _ _ _ Hv Hs')
      as (options & stats & _ & _ & E).
    subst outcome. by rewrite E, Hi.
  - intros Hi H1.
    destruct (resolved_ready env l _ _ _ Hv Hs' Hi) as (options & _ & Hr).
    fold mod_loader outcome in Hr.
    assert (E : find_launch_version env mod_loader version = loader_base).
    { rewrite Hf. simpl. by rewrite H1. }
    rewrite E in Hr. split; [done|by eexists].
  - intros Hi H1 H2.
    destruct (resolved_ready env l _ _ _ Hv Hs' Hi) as (options & _ & Hr).
    fold mod_loader outcome in Hr.
    assert (E : find_launch_version env mod_loader version = base_loader).
    { rewrite Hf. simpl. by rewrite H1, H2. }
    rewrite E in Hr. split; [done|by eexists].
Qed.

Lemma C3_first_installed_variant_wins_witness :
  let l := Sample.launcher "" "" in
  let both := Sample.good_world {[ "1.20.1"; "fabric-1.20.1"; "1.20.1-fabric" ]} in
  let second := Sample.good_world {[ "1.20.1"; "1.20.1-fabric" ]} in
  validate (ui l) = inr ("1.20.1", "Steve") ∧
  (save_settings_ui l).2 = true ∧
  mod_loader_var (ui l) ≠ "vanilla" ∧
  installed both "fabric-1.20.1" = true ∧
  installed both "1.20.1-fabric" = true ∧
  (∃ options,
     resolved (launch_minecraft both l).2 = Some ("fabric-1.20.1", options)) ∧
  installed second "fabric-1.20.1" = false ∧
  installed second "1.20.1-fabric" = true ∧
  (∃ options,
     resolved (launch_minecraft second l).2 = Some ("1.20.1-fabric", options)).
Proof.
  cbv zeta.
  assert (Hne : mod_loader_var (ui (Sample.launcher "" "")) ≠ "vanilla")
    by (simpl; discriminate).
  pose proof (C3_first_installed_variant_wins
                (Sample.good_world {[ "1.20.1"; "fabric-1.20.1"; "1.20.1-fabric" ]})
                (Sample.launcher "" "") "1.20.1" "Steve" eq_refl eq_refl Hne)
    as (_ & Hfirst & _).
  pose proof (C3_first_installed_variant_wins
                (Sample.good_world {[ "1.20.1"; "1.20.1-fabric" ]})
                (Sample.launcher "" "") "1.20.1" "Steve" eq_refl eq_refl Hne)
    as (_ & _ & Hsecond).
  split; [reflexivity|]. split; [reflexivity|]. split; [exact Hne|].
  split; [reflexivity|]. split; [reflexivity|].
  split; [exact (proj2 (Hfirst eq_refl eq_refl))|].
  split; [reflexivity|]. split; [reflexivity|].
  exact (proj2 (Hsecond eq_refl eq_refl eq_refl)).
Defined.

(** C3, as stated, fails on the specification's own scenario: Fabric is
    selected and ["fabric-1.20.1"] is installed, but the base version is
    not, and the launch ends in "Version Not Installed" without asking the
    backend for any version. *)
Lemma C3_counterexample :
  let env := Sample.good_world {[ "fabric-1.20.1" ]} in
  let l := Sample.launcher "" "" in
  mod_loader_var (ui l) = "fabric" ∧
  mod_loader_var (ui l) ≠ "vanilla" ∧
  PyStr.strip (version_var (ui l)) = "1.20.1" ∧
  installed env "fabric-1.20.1" = true ∧
  (launch_minecraft env l).2 = VersionNotInstalled "1.20.1" ∧
  (∀ options,
     resolved (launch_minecraft env l).2 ≠ Some ("fabric-1.20.1", options)).
Proof.
  cbv zeta. split; [reflexivity|]. split; [simpl; discriminate|].
  split; [reflexivity|]. split; [reflexivity|].
  assert (E : (launch_minecraft (Sample.good_world {[ "fabric-1.20.1" ]})
                 (Sample.launcher "" "")).2 = VersionNotInstalled "1.20.1")
    by (by vm_compute).
  split; [exact E|]. intros options. by rewrite E.
Qed.

(** C4.  When neither ["<loader>-<base>"] nor ["<base>-<loader>"] is
    installed the variant search returns the base version as it is.  The
    search is a total function and reports nothing: with the base version
    installed the launch goes on to the backend and asks for the base
    version. *)
Theorem C4_fallback_to_base (env : Env) (l : Launcher) :
  let mod_loader := mod_loader_var (ui l) in
  let version := PyStr.strip (version_var (ui l)) in
  installed env (mod_loader +:+ "-" +:+ version) = false →
  installed env (version +:+ "-" +:+ mod_loader) = false →
  find_launch_version env mod_loader version = version ∧
  (∀ v options,
     resolved (launch_minecraft env l).2 = Some (v, options) → v = version) ∧
  (∀ username,
     validate (ui l) = inr (version, username) →
     (save_settings_ui l).2 = true →
     installed env version = true →
     ∃ options, resolved (launch_minecraft env l).2 = Some (version, options)).
Proof.
  intros mod_loader version H1 H2.
  assert (Hf : find_launch_version env mod_loader version = version).
  { unfold find_launch_version. destruct (negb _); [|done]. simpl.
    by rewrite H1, H2. }
  split; [done|]. split.
  - intros v options Hr.
    destruct (resolved_inv _ _ _ _ Hr) as (v0 & u & l1 & Hv & _ & _ & -> & _).
    destruct (validate_ok _ _ _ Hv) as (-> & _). done.
  - intros username Hv Hs Hi.
    destruct (save_settings_ui l) as [l1 ok] eqn:Hs'. simpl in Hs. subst ok.
    destruct (resolved_ready env l _ _ _ Hv Hs' Hi) as (options & _ & Hr).
    fold mod_loader in Hr. rewrite Hf in Hr. by eexists.
Qed.

Lemma C4_fallback_to_base_witness :
  let env := Sample.good_world {[ "1.20.1" ]} in
  installed env "fabric-1.20.1" = false ∧
  installed env "1.20.1-fabric" = false ∧
  find_launch_version env "fabric" "1.20.1" = "1.20.1" ∧
  ∃ options,
    resolved (launch_minecraft env (Sample.launcher "" "")).2 =
    Some ("1.20.1", options).
Proof.
  cbv zeta. split; [reflexivity|]. split; [reflexivity|].
  pose proof (C4_fallback_to_base (Sample.good_world {[ "1.20.1" ]})
                (Sample.launcher "" "") eq_refl eq_refl) as (Hf & _ & Hr).
  split; [exact Hf|]. exact (Hr "Steve" eq_refl eq_refl eq_refl).
Defined.

(** C5, as the code has it.  With a server address that is not blank, the
    options handed to the backend hold the trimmed address under [server];
    [port] is set to the trimmed port only when that is not empty, and is
    otherwise left as [generate_test_options] gave it: the launcher writes
    no default port. *)
Theorem C5_server_join_as_given (env : Env) (l : Launcher)
    (host port : string) :
  server_ip_var (ui l) = Some host →
  server_port_var (ui l) = Some port →
  PyStr.strip host ≠ "" →
  ∀ v options,
    resolved (launch_minecraft env l).2 = Some (v, options) →
    options !! "server" = Some (JStr (PyStr.strip host)) ∧
    options !! "port" =
      if PyStr.nonempty (PyStr.strip port)
      then Some (JStr (PyStr.strip port))
      else generate_test_options env !! "port".
Proof.
  intros Hi Hp Hne v options Hr.
  destruct (resolved_inv _ _ _ _ Hr) as (v0 & u & l1 & Hv & Hs & _ & _ & Hb).
  destruct (save_settings_ui_done _ _ Hs)
    as [_ (width & height & full & text & ip & port' & W)].
  destruct W as (Hw & Hh & Hf & Ht & Hi' & Hp').
  pose proof (save_settings_ui_frame l) as (Hui & _).
  rewrite Hs in Hui. simpl in Hui.
  destruct (build_options_widgets env u l1 width height full text ip port')
    as (base & Hb' & _ & _ & _ & _ & Hport); rewrite ?Hui; try done.
  rewrite Hb' in Hb. simplify_eq.
  assert (Hhost : PyStr.nonempty (PyStr.strip host) = true).
  { destruct (PyStr.strip host); done. }
  destruct (server_options_widgets l1 base host port) as [E1 E2];
    rewrite ?Hui; try done.
  by rewrite E1, E2, Hport.
Qed.

Lemma C5_server_join_as_given_witness :
  let env := Sample.good_world {[ "1.20.1" ]} in
  let l := Sample.launcher " play.example.com" "25570 " in
  ∃ options,
    resolved (launch_minecraft env l).2 = Some ("1.20.1", options) ∧
    options !! "server" = Some (JStr "play.example.com") ∧
    options !! "port" = Some (JStr "25570").
Proof.
  cbv zeta.
  assert (Hi : installed (Sample.good_world {[ "1.20.1" ]}) "1.20.1" = true)
    by (vm_compute; reflexivity).
  destruct (resolved_ready (Sample.good_world {[ "1.20.1" ]})
              (Sample.launcher " play.example.com" "25570 ")
              "1.20.1" "Steve" _ eq_refl eq_refl Hi)
    as (options & _ & Hr).
  vm_compute (find_launch_version _ _ _) in Hr.
  exists options. split; [exact Hr|].
  refine (C5_server_join_as_given (Sample.good_world {[ "1.20.1" ]})
            (Sample.launcher " play.example.com" "25570 ")
            " play.example.com" "25570 " eq_refl eq_refl _ _ _ Hr).
  simpl. discriminate.
Defined.

(** C5, as stated, fails on the specification's scenario: with the address
    ["play.example.com"] and an empty port the options hold the address and
    no port at all. *)
Lemma C5_counterexample :
  let env := Sample.good_world {[ "1.20.1" ]} in
  let l := Sample.launcher "play.example.com" "" in
  ∃ options,
    resolved (launch_minecraft env l).2 = Some ("1.20.1", options) ∧
    options !! "server" = Some (JStr "play.example.com") ∧
    options !! "port" = None ∧
    options !! "port" ≠ Some (JStr "25565").
Proof.
  cbv zeta.
  assert (Hi : installed (Sample.good_world {[ "1.20.1" ]}) "1.20.1" = true)
    by (vm_compute; reflexivity).
  destruct (resolved_ready (Sample.good_world {[ "1.20.1" ]})
              (Sample.launcher "play.example.com" "")
              "1.20.1" "Steve" _ eq_refl eq_refl Hi)
    as (options & Hb & Hr).
  vm_compute (find_launch_version _ _ _) in Hr.
  exists options. split; [exact Hr|].
  vm_compute in Hb. simplify_eq. by vm_compute.
Qed.

(** ** The claims about validation and bookkeeping *)

(** Lower-casing neither creates nor removes a digit. *)
Lemma isdigit_lower_char c : PyStr.isdigit (PyStr.lower_char c) = PyStr.isdigit c.
Proof. by destruct c as [[] [] [] [] [] [] [] []]. Qed.

Lemma any_digit_lower s : PyStr.any_digit (PyStr.lower s) = PyStr.any_digit s.
Proof.
  induction s as [|c r IH]; simpl; [done|].
  by rewrite isdigit_lower_char, IH.
Qed.

(** A version without a digit after trimming stops at one of the two
    version boxes. *)
Lemma validate_no_digit w :
  PyStr.any_digit (PyStr.strip (version_var w)) = false →
  validate w = inl NoVersion ∨
  validate w = inl (InvalidVersion (PyStr.strip (version_var w))).
Proof.
  intros H. unfold validate. rewrite H. simpl. case_match; auto.
Qed.

(** A version with a digit passes the version checks; a blank username then
    stops the launch. *)
Lemma validate_blank_username w :
  PyStr.any_digit (PyStr.strip (version_var w)) = true →
  PyStr.strip (username_var w) = "" →
  validate w = inl NoUsername.
Proof.
  intros Hd Hu. unfold validate. rewrite Hd, Hu.
  destruct (String.eqb_spec (PyStr.lower (PyStr.strip (version_var w))) "value")
    as [Hl|_].
  { rewrite <- any_digit_lower, Hl in Hd. done. }
  destruct (PyStr.strip (version_var w)); done.
Qed.

(** C6.  A base version that is empty, that is the placeholder ["value"],
    or that has no digit ends the launch with an InvalidVersion error, the
    same for every file system and backend (nothing has been looked up) and
    whatever the username is; the launcher is left as it was.  With a valid
    version, a username that trims to the empty string ends the launch with
    "No Username". *)
Theorem C6_validation_order (l : Launcher) :
  let version := version_var (ui l) in
  let username := username_var (ui l) in
  (version = "" ∨ PyStr.lower (PyStr.strip version) = "value" ∨
   PyStr.any_digit version = false →
   ∃ failure,
     error_class failure = Some InvalidVersionError ∧
     ∀ env, launch_minecraft env l = (l, failure)) ∧
  (PyStr.any_digit (PyStr.strip version) = true →
   PyStr.strip username = "" →
   error_class NoUsername = Some MissingUsername ∧
   ∀ env, launch_minecraft env l = (l, NoUsername)).
Proof.
  intros version username. split.
  - intros H.
    assert (Hd : PyStr.any_digit (PyStr.strip version) = false).
    { destruct H as [->|[H|H]]; [done| |by apply any_digit_strip].
      by rewrite <- any_digit_lower, H. }
    destruct (validate_no_digit _ Hd) as [E|E].
    + exists NoVersion. split; [done|]. intros env.
      unfold launch_minecraft. by rewrite E.
    + eexists. split; [|intros env; unfold launch_minecraft; by rewrite E].
      done.
  - intros Hd Hu. split; [done|]. intros env.
    unfold launch_minecraft. by rewrite (validate_blank_username _ Hd Hu).
Qed.

Lemma C6_validation_order_witness :
  (∃ failure,
     error_class failure = Some InvalidVersionError ∧
     launch_minecraft (Sample.good_world ∅)
       (Sample.request "" "fabric" "" "" "")
     = (Sample.request "" "fabric" "" "" "", failure)) ∧
  launch_minecraft (Sample.good_world {[ "1.20.1" ]})
    (Sample.request "1.20.1" "fabric" "  " "" "")
  = (Sample.request "1.20.1" "fabric" "  " "" "", NoUsername).
Proof.
  split.
  - destruct (proj1 (C6_validation_order (Sample.request "" "fabric" "" "" ""))
                (or_introl eq_refl)) as (failure & Hc & Hl).
    exists failure. split; [exact Hc|apply Hl].
  - apply (C6_validation_order (Sample.request "1.20.1" "fabric" "  " "" ""));
      reflexivity.
Defined.

(** C7, as the code has it.  A launch that fails at validation leaves the
    launcher as it was.  One that fails at the installed check leaves the
    recent-versions list as it was.  One that fails in the backend, at
    command creation or at process start, has already updated the
    recent-versions list: the update comes before the backend is asked for a
    command.  On no failing path is a statistics entry written: one found
    in the settings afterwards was there before, unchanged. *)
Theorem C7_bookkeeping_on_each_path (env : Env) (l : Launcher) :
  let l' := (launch_minecraft env l).1 in
  let unwritten :=
    ∀ stats, settings l' !! "statistics" = Some stats →
             settings l !! "statistics" = Some stats in
  match (launch_minecraft env l).2 with
  | NoVersion | InvalidVersion _ | NoUsername => l' = l
  | UncaughtAttributeError | VersionNotInstalled _
  | UnexpectedError | OutsideModel =>
      recent_versions l' = recent_versions l ∧ unwritten
  | VersionNotFound v _ | CommandCreationFailed v _
  | JavaNotFound v _ | ProcessStartFailed v _ =>
      recent_versions l' = add_recent v (recent_versions l) ∧ unwritten
  | Launched v _ _ =>
      recent_versions l' = add_recent v (recent_versions l)
  end.
Proof.
  intros l' unwritten. subst l' unwritten.
  destruct (validate (ui l)) as [o|[version username]] eqn:Hv.
  { unfold launch_minecraft. rewrite Hv. simpl.
    by destruct (validate_failure _ _ Hv) as [->|[->| ->]]. }
  destruct (save_settings_ui l) as [l1 []] eqn:Hs.
  - pose proof (save_settings_ui_frame l) as (_ & Hrecent & _).
    rewrite Hs in Hrecent. simpl in Hrecent.
    assert (Hnone : settings l1 !! "statistics" = None).
    { destruct (save_settings_ui_done _ _ Hs) as [[p ->] _].
      rewrite (settings_save_settings (set_prefs p l)).
      by apply settings_document_unsaved. }
    destruct (launch_minecraft_ready env l _ _ _ Hv Hs)
      as (options & stats & _ & _ & ->).
    cbv zeta.
    destruct (negb (installed env version));
      [|destruct (get_minecraft_command _ _ _) as [command| |];
        [destruct (Popen env command)| |]];
      simpl; rewrite ?Hnone; try done.
    all: try (split; [done|]; intros ?; by rewrite ?Hnone).
  - unfold launch_minecraft. rewrite Hv, Hs. simpl.
    destruct (save_settings_ui_raised _ _ Hs) as (-> & _ & ->). done.
Qed.

(** C7, as stated, fails: with 1.20.1 installed and a backend that cannot
    create the command, resolution fails with a backend error and the
    recent-versions list, empty before, holds the version afterwards. *)
Lemma C7_counterexample :
  let env := Sample.world {[ "1.20.1" ]} CommandError (PopenOk 4242) in
  let l := Sample.launcher "" "" in
  let result := launch_minecraft env l in
  error_class result.2 = Some BackendCommandError ∧
  recent_versions l = [] ∧
  recent_versions result.1 = ["1.20.1"].
Proof. by vm_compute. Qed.

(** * Further properties *)

#[local] Arguments settings_document : simpl never.
#[local] Arguments saved_keys : simpl never.

(** ** What a save writes *)

Lemma strings_of_fmap (xs : list string) : strings_of (JStr <$> xs) = Some xs.
Proof. induction xs as [|x r IH]; csimpl; [done|]. by rewrite IH. Qed.

Lemma strings_of_inv items xs : strings_of items = Some xs → items = JStr <$> xs.
Proof.
  revert xs. induction items as [|v r IH]; intros xs H; simpl in H.
  - by simplify_eq.
  - destruct v; try done.
    destruct (strings_of r) as [ys|] eqn:E; simplify_eq/=.
    csimpl. by rewrite (IH ys).
Qed.

(** The value stored under each of the fourteen keys. *)
Lemma settings_document_lookup l :
  let d := settings_document l in
  let p := prefs l in
  d !! "selected_version" = Some (selected_version p) ∧
  d !! "selected_mod_loader" = Some (selected_mod_loader p) ∧
  d !! "java_path" = Some (java_path p) ∧
  d !! "allocated_ram" = Some (allocated_ram p) ∧
  d !! "username" = Some (username p) ∧
  d !! "window_width" = Some (window_width p) ∧
  d !! "window_height" = Some (window_height p) ∧
  d !! "fullscreen" = Some (fullscreen p) ∧
  d !! "custom_jvm_args" = Some (custom_jvm_args p) ∧
  d !! "server_ip" = Some (server_ip p) ∧
  d !! "server_port" = Some (server_port p) ∧
  d !! "theme" = Some (theme p) ∧
  d !! "favorite_versions" =
    Some (JArr (JStr <$> elements (favorite_versions l))) ∧
  d !! "recent_versions" = Some (JArr (JStr <$> last10 (recent_versions l))).
Proof.
  cbv zeta. unfold settings_document.
  generalize (JArr (JStr <$> elements (favorite_versions l))).
  generalize (JArr (JStr <$> last10 (recent_versions l))).
  destruct (prefs l). intros. simpl. repeat split; by vm_compute.
Qed.

(** The document depends on the attributes and the two lists only. *)
Lemma settings_document_ext l1 l2 :
  prefs l1 = prefs l2 →
  favorite_versions l1 = favorite_versions l2 →
  recent_versions l1 = recent_versions l2 →
  settings_document l1 = settings_document l2.
Proof. unfold settings_document. by intros -> -> ->. Qed.

(** After a save, the list settings outside the fourteen keys read as
    empty. *)
Lemma get_strings_unsaved l key :
  key ∉ saved_keys → get_strings key (settings_document l) = Some [].
Proof.
  intros H. unfold get_strings. by rewrite settings_document_unsaved.
Qed.

(** ** Start-up *)

(** Starting on the file written by a save whose attributes have the types
    of their widgets: the widgets show the saved values, the lists are the
    saved lists, and the statistics are the zero default. *)
Lemma init_after_save env cat l v m j r u w h f c ip port th :
  prefs l = mkPrefs (JStr v) (JStr m) (JStr j) (JInt r) (JStr u) (JInt w)
              (JInt h) (JBool f) (JStr c) (JStr ip) (JStr port) (JStr th) →
  init env cat (disk (save_settings l)) =
  Some (mkApp
          (mkLauncher
             (<["statistics" := default_statistics]> (settings_document l))
             (prefs l) (favorite_versions l) (last10 (recent_versions l))
             (mkWidgets v m u j r th (Some w) (Some h) (Some f)
                (Some (c +:+ String PyStr.newline "")) (Some ip) (Some port))
             (disk (save_settings l)))
          (JStr "default") ∅ ∅ [] [] "" [] [] []
          [ "Total Launches: 0"; "Total Playtime: 0h 0m";
            "Most Used Version: "; "Last Launch: ";
            "Installed Versions: " +:+
              PyStr.of_Z (Z.of_nat
                match listdir_versions cat with
                | Some names => length (List.filter (isdir_version cat) names)
                | None => 0%nat
                end) ]).
Proof.
  intros Hp. unfold init, load_settings.
  rewrite disk_save_settings.
  change (default ∅ (Some (settings_document l))) with (settings_document l).
  destruct (settings_document_lookup l)
    as (E1 & E2 & E3 & E4 & E5 & E6 & E7 & E8 & E9 & E10 & E11 & E12 & E13 & E14).
  rewrite E1, E2, E3, E4, E5, E6, E7, E8, E9, E10, E11, E12.
  unfold get_strings. rewrite E13, E14, !strings_of_fmap.
  rewrite !settings_document_unsaved by (by vm_compute).
  rewrite Hp. simpl.
  rewrite list_to_set_elements_L.
  unfold statistics_lines. rewrite lookup_insert_eq. simpl.
  unfold load_saved_servers, get_strings. simpl.
  rewrite lookup_insert_ne by done.
  rewrite settings_document_unsaved by (by vm_compute). simpl.
  unfold load_profiles_list. simpl.
  rewrite lookup_insert_ne by done.
  rewrite settings_document_unsaved by (by vm_compute). simpl.
  unfold set_profiles_listbox, set_saved_servers_listbox. simpl.
  by destruct v.
Qed.

(** What [save_settings_ui] has stored when it completes. *)
Lemma save_settings_ui_stored l l1 :
  save_settings_ui l = (l1, true) →
  ∃ l0 width height full text ip port,
    l1 = save_settings l0 ∧
    favorite_versions l0 = favorite_versions l ∧
    recent_versions l0 = recent_versions l ∧
    ui l0 = ui l ∧
    window_width_var (ui l) = Some width ∧
    window_height_var (ui l) = Some height ∧
    fullscreen_var (ui l) = Some full ∧
    jvm_text_widget (ui l) = Some text ∧
    server_ip_var (ui l) = Some ip ∧
    server_port_var (ui l) = Some port ∧
    prefs l0 =
      mkPrefs (JStr (version_var (ui l))) (JStr (mod_loader_var (ui l)))
        (JStr (java_path_var (ui l))) (JInt (ram_var (ui l)))
        (JStr (username_var (ui l))) (JInt width) (JInt height) (JBool full)
        (JStr (PyStr.strip text)) (JStr ip) (JStr port)
        (JStr (theme_var (ui l))).
Proof.
  unfold save_settings_ui. intros H. repeat case_match; simplify_eq.
  eexists _, _, _, _, _, _, _. split; [reflexivity|]. by repeat split.
Qed.

(** The settings survive a restart.  When "Save All Settings" (or a launch)
    has saved the widgets, a launcher started on the disk it leaves shows
    the same version, mod loader, username, Java path, memory, window size,
    fullscreen choice, theme and server address; its JVM-arguments text is
    the old text trimmed; its favourites are the old ones and its recent
    versions the last ten of the old list. *)
Theorem settings_survive_restart (env : Env) (cat : Catalogue)
    (l l1 : Launcher) :
  save_settings_ui l = (l1, true) →
  ∃ a,
    init env cat (disk l1) = Some a ∧
    let w := ui (core a) in
    version_var w = version_var (ui l) ∧
    mod_loader_var w = mod_loader_var (ui l) ∧
    username_var w = username_var (ui l) ∧
    java_path_var w = java_path_var (ui l) ∧
    ram_var w = ram_var (ui l) ∧
    theme_var w = theme_var (ui l) ∧
    window_width_var w = window_width_var (ui l) ∧
    window_height_var w = window_height_var (ui l) ∧
    fullscreen_var w = fullscreen_var (ui l) ∧
    server_ip_var w = server_ip_var (ui l) ∧
    server_port_var w = server_port_var (ui l) ∧
    jvm_text_widget w =
      (λ text, PyStr.strip text +:+ String PyStr.newline "")
        <$> jvm_text_widget (ui l) ∧
    favorite_versions (core a) = favorite_versions l ∧
    recent_versions (core a) = last10 (recent_versions l) ∧
    prefs (core a) = prefs l1 ∧
    disk (core a) = disk l1.
Proof.
  intros Hs.
  destruct (save_settings_ui_stored _ _ Hs)
    as (l0 & width & height & full & text & ip & port & -> & Hf & Hr & Hu
        & Hw & Hh & Hfull & Ht & Hi & Hport & Hp).
  eexists. split; [by apply (init_after_save env cat l0 _ _ _ _ _ _ _ _ _ _ _ _ Hp)|].
  simpl. rewrite Hw, Hh, Hfull, Ht, Hi, Hport, Hf, Hr. by repeat split.
Qed.

Lemma settings_survive_restart_witness :
  ∃ a,
    init (Sample.good_world ∅) (mkCatalogue None None (λ _, false))
      (disk (save_settings_ui (Sample.launcher "play.example.com" "25570")).1)
      = Some a ∧
    version_var (ui (core a)) = "1.20.1" ∧
    server_ip_var (ui (core a)) = Some "play.example.com" ∧
    jvm_text_widget (ui (core a)) =
      Some ("-XX:+UseG1GC" +:+ String PyStr.newline "").
Proof.
  destruct (settings_survive_restart (Sample.good_world ∅)
              (mkCatalogue None None (λ _, false))
              (Sample.launcher "play.example.com" "25570") _ eq_refl)
    as (a & Hi & Hv & _ & _ & _ & _ & _ & _ & _ & _ & Hip & _ & Hj & _).
  exists a. split; [exact Hi|]. split; [exact Hv|]. split; [exact Hip|exact Hj].
Defined.

(** The launcher that a successful launch leaves behind. *)
Lemma launched_state env l l' v opts pid :
  launch_minecraft env l = (l', Launched v opts pid) →
  ∃ l1 l3,
    save_settings_ui l = (l1, true) ∧
    l' = save_settings l3 ∧
    prefs l3 = prefs l1 ∧
    favorite_versions l3 = favorite_versions l ∧
    recent_versions l3 = add_recent v (recent_versions l).
Proof.
  intros H.
  assert (Hr : resolved (launch_minecraft env l).2 = Some (v, opts))
    by (by rewrite H).
  destruct (resolved_inv _ _ _ _ Hr) as (version & u & l1 & Hv & Hs & Hi & -> & _).
  destruct (launch_minecraft_ready env l _ _ _ Hv Hs)
    as (options & stats & _ & _ & E).
  rewrite E, Hi in H. simpl in H.
  pose proof (save_settings_ui_frame l) as (_ & _ & Hf).
  rewrite Hs in Hf. simpl in Hf.
  destruct (get_minecraft_command _ _ _) as [command| |]; try done.
  destruct (Popen env command); try done.
  simplify_eq.
  eexists l1, _. split; [done|]. split; [reflexivity|]. by rewrite <- Hf.
Qed.

(** The statistics of a launch do not reach the next start.  After a launch
    that started the game, a launcher started on the disk it leaves finds no
    statistics and shows the zero default, "Total Launches: 0"; the recent
    versions, with the version just launched last, are there. *)
Theorem statistics_reset_at_start (env env' : Env) (cat : Catalogue)
    (l l' : Launcher) (v : string) (opts : gmap string Json) (pid : Z) :
  launch_minecraft env l = (l', Launched v opts pid) →
  ∃ a,
    init env' cat (disk l') = Some a ∧
    load_settings (disk l') !! "statistics" = None ∧
    settings (core a) !! "statistics" = Some default_statistics ∧
    stats_text_widget a !! 0%nat = Some "Total Launches: 0" ∧
    recent_versions (core a) = add_recent v (recent_versions l) ∧
    last (recent_versions (core a)) = Some v.
Proof.
  intros H.
  destruct (launched_state _ _ _ _ _ _ H) as (l1 & l3 & Hs & -> & Hp & Hf & Hr).
  destruct (save_settings_ui_stored _ _ Hs)
    as (l0 & width & height & full & text & ip & port & -> & _ & _ & _
        & _ & _ & _ & _ & _ & _ & Hp0).
  simpl in Hp. rewrite Hp0 in Hp.
  eexists. split; [by apply (init_after_save env' cat l3 _ _ _ _ _ _ _ _ _ _ _ _ Hp)|].
  split.
  { unfold load_settings. rewrite (disk_save_settings l3). simpl.
    by apply settings_document_unsaved. }
  simpl. split; [by rewrite lookup_insert_eq|]. split; [done|].
  rewrite Hr. split; [|by rewrite last10_short, last_add_recent by apply length_last10].
  apply last10_short, length_last10.
Qed.


Lemma statistics_reset_at_start_witness :
  ∃ l' opts a,
    launch_minecraft (Sample.good_world {[ "1.20.1" ]}) (Sample.launcher "" "")
      = (l', Launched "1.20.1" opts 4242) ∧
    init (Sample.good_world ∅) (mkCatalogue None None (λ _, false)) (disk l')
      = Some a ∧
    settings (core a) !! "statistics" = Some default_statistics ∧
    last (recent_versions (core a)) = Some "1.20.1".
Proof.
  assert (H : ∃ l' opts,
    launch_minecraft (Sample.good_world {[ "1.20.1" ]}) (Sample.launcher "" "")
      = (l', Launched "1.20.1" opts 4242)).
  { eexists _, _. vm_compute. reflexivity. }
  destruct H as (l' & opts & H).
  destruct (statistics_reset_at_start _ (Sample.good_world ∅)
              (mkCatalogue None None (λ _, false)) _ _ _ _ _ H)
    as (a & Hi & _ & Hs & _ & _ & Hr).
  exists l', opts, a. split; [exact H|]. split; [exact Hi|].
  split; [exact Hs|exact Hr].
Defined.

(** ** Saving twice *)

Lemma save_settings_fields l :
  prefs (save_settings l) = prefs l ∧
  favorite_versions (save_settings l) = favorite_versions l ∧
  recent_versions (save_settings l) = recent_versions l ∧
  ui (save_settings l) = ui l ∧
  disk (save_settings l) = <[settings_file := settings_document l]> (disk l).
Proof. by repeat split. Qed.

(** Saving again from a launcher that differs only in its settings
    dictionary and in the saved file gives the same launcher. *)
Lemma save_settings_again l0 l1 d :
  prefs l1 = prefs l0 →
  favorite_versions l1 = favorite_versions l0 →
  recent_versions l1 = recent_versions l0 →
  ui l1 = ui l0 →
  disk l1 = <[settings_file := d]> (disk l0) →
  save_settings l1 = save_settings l0.
Proof.
  intros Hp Hf Hr Hu Hd.
  pose proof (settings_document_ext l1 l0 Hp Hf Hr) as Hdoc.
  unfold save_settings, write_file, set_settings.
  cbn [settings prefs favorite_versions recent_versions ui disk].
  rewrite Hp, Hf, Hr, Hu, Hd, Hdoc.
  f_equal.
  apply insert_insert_eq.
Qed.

(** The settings file after a save. *)
Lemma load_settings_save_settings l :
  load_settings (disk (save_settings l)) = settings_document l.
Proof. unfold load_settings. by rewrite disk_save_settings. Qed.

(** ** Resetting *)

(** A confirmed reset is a save of the launcher with the ten defaults. *)
Lemma reset_settings_confirmed env l :
  reset_settings env true l =
  save_settings
    (set_prefs
       (mkPrefs (JStr "") (JStr "vanilla") (find_java env) (JInt 4096)
          (JStr "Player") (JInt 854) (JInt 480) (JBool false) (JStr "")
          (server_ip (prefs l)) (server_port (prefs l)) (JStr "light"))
       (set_settings ∅ l)).
Proof. reflexivity. Qed.

(** "Reset to Defaults" does not reset everything.  After a confirmed
    reset the ten attributes it names hold their defaults and every key
    outside the fourteen is gone, but the server address, the favourites and
    the recent versions are as before and are written to the new file; a
    second reset changes nothing more. *)
Theorem reset_settings_keeps (env : Env) (l : Launcher) :
  let l' := reset_settings env true l in
  prefs l' =
    mkPrefs (JStr "") (JStr "vanilla") (find_java env) (JInt 4096)
      (JStr "Player") (JInt 854) (JInt 480) (JBool false) (JStr "")
      (server_ip (prefs l)) (server_port (prefs l)) (JStr "light") ∧
  favorite_versions l' = favorite_versions l ∧
  recent_versions l' = recent_versions l ∧
  ui l' = ui l ∧
  dom (settings l') = saved_keys ∧
  disk l' !! settings_file = Some (settings l') ∧
  settings l' !! "server_ip" = Some (server_ip (prefs l)) ∧
  settings l' !! "server_port" = Some (server_port (prefs l)) ∧
  settings l' !! "favorite_versions" =
    Some (JArr (JStr <$> elements (favorite_versions l))) ∧
  settings l' !! "recent_versions" =
    Some (JArr (JStr <$> last10 (recent_versions l))) ∧
  reset_settings env true l' = l'.
Proof.
  intros l'.
  pose proof (reset_settings_confirmed env l) as E. fold l' in E.
  pose proof (reset_settings_confirmed env l') as E'.
  revert E E'. generalize l'. clear l'. intros l' E E'.
  set (p := mkPrefs (JStr "") (JStr "vanilla") (find_java env) (JInt 4096)
      (JStr "Player") (JInt 854) (JInt 480) (JBool false) (JStr "")
      (server_ip (prefs l)) (server_port (prefs l)) (JStr "light")) in *.
  set (l0 := set_prefs p (set_settings ∅ l)) in *.
  destruct (save_settings_fields l0) as (Hp' & Hf' & Hr' & Hu' & Hd').
  destruct (settings_document_lookup l0)
    as (_ & _ & _ & _ & _ & _ & _ & _ & _ & E10 & E11 & _ & E13 & E14).
  rewrite <- E in Hp', Hf', Hr', Hu', Hd'.
  pose proof (settings_save_settings l0) as Hs. rewrite <- E in Hs.
  pose proof (disk_save_settings l0) as Hds. rewrite <- E in Hds.
  pose proof (dom_settings_document l0) as Hdom.
  rewrite Hs, Hp', Hf', Hr', Hu'.
  split; [reflexivity|]. split; [reflexivity|]. split; [reflexivity|].
  split; [reflexivity|]. split; [exact Hdom|]. split; [exact Hds|].
  split; [exact E10|]. split; [exact E11|]. split; [exact E13|].
  split; [exact E14|].
  rewrite E'.
  assert (Hsp : server_ip (prefs l') = server_ip (prefs l)) by (by rewrite Hp').
  assert (Hpp : server_port (prefs l') = server_port (prefs l))
    by (by rewrite Hp').
  rewrite Hsp, Hpp. fold p.
  transitivity (save_settings l0); [|by rewrite E].
  apply (save_settings_again l0 _ (settings_document l0)).
  - reflexivity.
  - exact Hf'.
  - exact Hr'.
  - exact Hu'.
  - exact Hd'.
Qed.

(** ** Favourites *)


(** ** Saved servers *)

Lemma load_saved_servers_after_save l a :
  load_saved_servers (set_core (save_settings l) a) =
  Some (set_saved_servers_listbox [] (set_core (save_settings l) a)).
Proof.
  unfold load_saved_servers.
  change (settings (core (set_core (save_settings l) a)))
    with (settings_document l).
  by rewrite get_strings_unsaved.
Qed.

(** A server that is added is not kept.  When the address field is not
    blank and the entry is not among the saved servers, [add_server] reports
    success, yet afterwards the list box is empty and neither the settings
    dictionary nor the settings file has a [saved_servers] key: servers that
    were saved before are gone as well, and adding the same server once more
    reports success again. *)
Theorem add_server_forgets (a : App) (ip_field port_field : string)
    (servers : list string) :
  server_ip_var (ui (core a)) = Some ip_field →
  server_port_var (ui (core a)) = Some port_field →
  PyStr.strip ip_field ≠ "" →
  get_strings "saved_servers" (settings (core a)) = Some servers →
  server_info ip_field port_field ∉ servers →
  ∃ a',
    add_server a = (a', Box "Success") ∧
    saved_servers_listbox a' = [] ∧
    settings (core a') !! "saved_servers" = None ∧
    load_settings (disk (core a')) !! "saved_servers" = None ∧
    ui (core a') = ui (core a) ∧
    (add_server a').2 = Box "Success".
Proof.
  intros Hip Hport Hne Hs Hnew.
  assert (Hblank : negb (PyStr.nonempty (PyStr.strip ip_field)) = false).
  { destruct (PyStr.strip ip_field); done. }
  assert (Hin : negb (py_in (server_info ip_field port_field) servers) = true).
  { destruct (py_in _ servers) eqn:E; [|done]. by apply py_in_spec in E. }
  unfold add_server at 1. rewrite Hip, Hport, Hblank, Hs, Hin.
  rewrite load_saved_servers_after_save.
  eexists. split; [reflexivity|].
  split; [reflexivity|].
  change (settings (core (set_saved_servers_listbox [] (set_core (save_settings ?l) a))))
    with (settings_document l).
  split; [by apply settings_document_unsaved|].
  change (disk (core (set_saved_servers_listbox [] (set_core (save_settings ?l) a))))
    with (disk (save_settings l)).
  split; [rewrite load_settings_save_settings; by apply settings_document_unsaved|].
  split; [reflexivity|].
  unfold add_server.
  change (ui (core (set_saved_servers_listbox [] (set_core (save_settings ?l) a))))
    with (ui (core a)).
  rewrite Hip, Hport, Hblank.
  change (settings (core (set_saved_servers_listbox [] (set_core (save_settings ?l) a))))
    with (settings_document l).
  rewrite get_strings_unsaved by (by vm_compute).
  cbn [py_in existsb negb].
  by rewrite load_saved_servers_after_save.
Qed.

Lemma add_server_forgets_witness :
  ∃ a',
    add_server (app_with_servers ["mc.example.org:25565"]
                  (Sample.launcher " play.example.com " "")) =
      (a', Box "Success") ∧
    saved_servers_listbox a' = [].
Proof.
  destruct (add_server_forgets
              (app_with_servers ["mc.example.org:25565"]
                 (Sample.launcher " play.example.com " ""))
              " play.example.com " "" ["mc.example.org:25565"]
              eq_refl eq_refl) as (a' & H & Hl & _).
  - by vm_compute.
  - by vm_compute.
  - rewrite <- py_in_spec. by vm_compute.
  - by exists a'.
Defined.

(** Removing one saved server removes them all.  When the selected entry
    is among the saved servers, [remove_server] leaves an empty list box and
    no [saved_servers] key in the settings dictionary or the settings
    file. *)
Theorem remove_server_removes_all (a : App) (i : nat) (entry : string)
    (servers : list string) :
  saved_servers_listbox a !! i = Some entry →
  get_strings "saved_servers" (settings (core a)) = Some servers →
  entry ∈ servers →
  ∃ a',
    remove_server (Some i) a = (a', Silent) ∧
    saved_servers_listbox a' = [] ∧
    settings (core a') !! "saved_servers" = None ∧
    load_settings (disk (core a')) !! "saved_servers" = None.
Proof.
  intros Hi Hs Hin.
  apply py_in_spec in Hin.
  unfold remove_server. rewrite Hi, Hs. cbn [default from_option id]. rewrite Hin.
  rewrite load_saved_servers_after_save.
  eexists. split; [reflexivity|].
  split; [reflexivity|].
  change (settings (core (set_saved_servers_listbox [] (set_core (save_settings ?l) a))))
    with (settings_document l).
  split; [by apply settings_document_unsaved|].
  change (disk (core (set_saved_servers_listbox [] (set_core (save_settings ?l) a))))
    with (disk (save_settings l)).
  rewrite load_settings_save_settings. by apply settings_document_unsaved.
Qed.

Lemma remove_server_removes_all_witness :
  ∃ a',
    remove_server (Some 0%nat)
      (app_with_servers ["mc.example.org:25565"; "play.example.com:25570"]
         (Sample.launcher "" "")) = (a', Silent) ∧
    saved_servers_listbox a' = [].
Proof.
  destruct (remove_server_removes_all
              (app_with_servers ["mc.example.org:25565"; "play.example.com:25570"]
                 (Sample.launcher "" ""))
              0 "mc.example.org:25565"
              ["mc.example.org:25565"; "play.example.com:25570"]
              eq_refl) as (a' & H & Hl & _).
  - by vm_compute.
  - rewrite <- py_in_spec. by vm_compute.
  - by exists a'.
Defined.

(** ** Splitting at a separator *)

Lemma split_on_nonempty sep s : split_on sep s ≠ [].
Proof.
  destruct s as [|c r]; [done|]. simpl.
  destruct (Ascii.eqb c sep); [done|]. by destruct (split_on sep r).
Qed.

(** A string without the separator is its own single piece. *)
Lemma split_on_absent sep s : has_char sep s = false → split_on sep s = [s].
Proof.
  induction s as [|c r IH]; [done|]. simpl.
  destruct (Ascii.eqb c sep); [done|]. simpl. intros H. by rewrite IH.
Qed.

(** The pieces of [a + sep + b] when [a] has no separator. *)
Lemma split_on_joined sep a b :
  has_char sep a = false →
  split_on sep (a +:+ String sep b) = a :: split_on sep b.
Proof.
  induction a as [|c r IH]; simpl.
  - by rewrite Ascii.eqb_refl.
  - destruct (Ascii.eqb c sep); [done|]. simpl. intros H. by rewrite IH.
Qed.

(** The number of pieces of [a + sep + b]. *)
Lemma length_split_on_joined sep a b :
  length (split_on sep (a +:+ String sep b)) =
  (length (split_on sep a) + length (split_on sep b))%nat.
Proof.
  induction a as [|c r IH]; simpl.
  - by rewrite Ascii.eqb_refl.
  - destruct (Ascii.eqb c sep); simpl; [by rewrite IH|].
    pose proof (split_on_nonempty sep (r +:+ String sep b)) as H1.
    pose proof (split_on_nonempty sep r) as H2.
    destruct (split_on sep (r +:+ String sep b)); [done|].
    destruct (split_on sep r); [done|]. simpl in *. lia.
Qed.

(** A string with the separator has at least two pieces. *)
Lemma length_split_on_present sep s :
  has_char sep s = true → (2 ≤ length (split_on sep s))%nat.
Proof.
  induction s as [|c r IH]; [done|]. simpl.
  pose proof (split_on_nonempty sep r) as Hr.
  destruct (Ascii.eqb c sep); simpl.
  - intros _. destruct (split_on sep r); [done|]. simpl. lia.
  - intros H. specialize (IH H). destruct (split_on sep r); [done|]. done.
Qed.

Lemma has_char_joined sep a b : has_char sep (a +:+ String sep b) = true.
Proof.
  induction a as [|c r IH]; simpl.
  - by rewrite Ascii.eqb_refl.
  - rewrite IH. by destruct (Ascii.eqb c sep).
Qed.

(** ** Selecting a saved server *)

(** An entry as [add_server] builds it is taken apart again.  When neither
    the trimmed address nor the trimmed port holds a colon, selecting the
    entry puts the trimmed address into the address field and the port, or
    25565 for a blank one, into the port field; nothing else changes and
    nothing is saved. *)
Theorem connect_to_server_entry (a : App) (i : nat)
    (ip_field port_field old_ip old_port : string) :
  saved_servers_listbox a !! i = Some (server_info ip_field port_field) →
  has_char colon (PyStr.strip ip_field) = false →
  has_char colon (PyStr.strip port_field) = false →
  server_ip_var (ui (core a)) = Some old_ip →
  server_port_var (ui (core a)) = Some old_port →
  ∃ a',
    connect_to_server (Some i) a = (a', Box "Server Selected") ∧
    server_ip_var (ui (core a')) = Some (PyStr.strip ip_field) ∧
    server_port_var (ui (core a')) =
      Some (if PyStr.nonempty (PyStr.strip port_field)
            then PyStr.strip port_field else "25565") ∧
    ui (core a') =
      with_server_vars (PyStr.strip ip_field)
        (if PyStr.nonempty (PyStr.strip port_field)
         then PyStr.strip port_field else "25565") (ui (core a)) ∧
    settings (core a') = settings (core a) ∧
    prefs (core a') = prefs (core a) ∧
    disk (core a') = disk (core a) ∧
    saved_servers_listbox a' = saved_servers_listbox a.
Proof.
  intros Hi Hip Hport Ho1 Ho2.
  set (port := if PyStr.nonempty (PyStr.strip port_field)
               then PyStr.strip port_field else "25565").
  assert (Hp : has_char colon port = false).
  { subst port. by destruct (PyStr.nonempty _). }
  assert (E : server_info ip_field port_field =
              PyStr.strip ip_field +:+ String colon port).
  { unfold server_info. subst port. by destruct (PyStr.nonempty _). }
  unfold connect_to_server. rewrite Hi. cbn [default from_option id]. rewrite E.
  rewrite has_char_joined, (split_on_joined _ _ _ Hip), (split_on_absent _ _ Hp).
  rewrite Ho1. cbn [server_port_var]. rewrite Ho2.
  eexists. split; [reflexivity|]. by repeat split.
Qed.

Lemma connect_to_server_entry_witness :
  ∃ a',
    connect_to_server (Some 0%nat)
      (set_saved_servers_listbox [server_info " play.example.com " ""]
         (app_of (Sample.launcher "" ""))) = (a', Box "Server Selected") ∧
    server_ip_var (ui (core a')) = Some "play.example.com" ∧
    server_port_var (ui (core a')) = Some "25565".
Proof.
  destruct (connect_to_server_entry
              (set_saved_servers_listbox [server_info " play.example.com " ""]
                 (app_of (Sample.launcher "" "")))
              0 " play.example.com " "" "" ""
              eq_refl eq_refl eq_refl eq_refl eq_refl)
    as (a' & H & H1 & H2 & _).
  by exists a'.
Defined.

(** An entry with more than one colon cannot be selected.  When either part
    of an entry [x:y] holds a colon itself, as the address does for a
    numeric IPv6 host, [split(":")] gives more than two pieces, the
    unpacking raises [ValueError], and the fields stay as they are. *)
Theorem connect_to_server_second_colon (a : App) (i : nat) (x y : string) :
  saved_servers_listbox a !! i = Some (x +:+ ":" +:+ y) →
  has_char colon x = true ∨ has_char colon y = true →
  connect_to_server (Some i) a = (a, Raised "ValueError").
Proof.
  intros Hi Hc.
  change (x +:+ ":" +:+ y) with (x +:+ String colon y) in Hi.
  unfold connect_to_server. rewrite Hi. cbn [default from_option id].
  rewrite has_char_joined.
  pose proof (length_split_on_joined colon x y) as Hl.
  pose proof (split_on_nonempty colon x) as Hx.
  pose proof (split_on_nonempty colon y) as Hy.
  assert (3 ≤ length (split_on colon (x +:+ String colon y)))%nat as H3.
  { rewrite Hl. destruct Hc as [Hc|Hc];
      apply length_split_on_present in Hc;
      destruct (split_on colon x), (split_on colon y); simpl in *; try done; lia. }
  destruct (split_on colon (x +:+ String colon y)) as [|p1 [|p2 [|p3 r]]];
    simpl in H3; try lia; done.
Qed.

Lemma connect_to_server_second_colon_witness :
  let a := set_saved_servers_listbox [server_info "::1" "25565"]
             (app_of (Sample.launcher "" "")) in
  connect_to_server (Some 0%nat) a = (a, Raised "ValueError").
Proof.
  cbv zeta.
  apply (connect_to_server_second_colon _ 0 "::1" "25565").
  - reflexivity.
  - left. reflexivity.
Defined.

(** ** The version lists *)

#[local] Instance string_ge_total : Total (flip string_le).
Proof.
  intros x y. unfold flip, string_le.
  destruct (String.leb_total y x) as [H|H]; [by left|by right].
Qed.




(** What [update_version_combos] does to the selection. *)
Lemma update_version_combos_selection version_list a :
  let a' := update_version_combos version_list a in
  version_combo a' = version_list ∧
  mod_loader_version_combo a' = version_list ∧
  mod_loader_version_var a' = "" ∧
  version_tree a' = version_tree a ∧
  (version_var (ui (core a')) = "" ∨
   version_var (ui (core a')) = version_var (ui (core a)) ∧
   version_var (ui (core a)) ∈ version_list).
Proof.
  cbv zeta. unfold update_version_combos.
  cbn [set_version_combos core ui].
  destruct (PyStr.nonempty (version_var (ui (core a)))) eqn:Hn;
    [destruct (py_in (version_var (ui (core a))) version_list) eqn:Hin|];
    cbn [andb negb]; repeat (split; [reflexivity|]).
  - right. split; [reflexivity|]. by apply py_in_spec.
  - by left.
  - left. by apply nonempty_false.
Qed.



(** On the sample catalogue the combo boxes list the Fabric version first. *)
Example fetch_versions_sample :
  let env := Sample.good_world {[ "1.20.1"; "fabric-1.20.1" ]} in
  let a := fetch_versions env sample_catalogue (app_of (Sample.launcher "" "")) in
  version_combo a = [ "fabric-1.20.1"; "1.20.1"; "1.19.4" ] ∧
  version_var (ui (core a)) = "1.20.1".
Proof. by vm_compute. Qed.

(** A selection that is not in the refreshed list is cleared, and a launch
    then stops at the first check with "No Version". *)
Theorem stale_selection_cleared (env : Env) (a : App)
    (version_list : list string) :
  version_var (ui (core a)) ∉ version_list →
  let a' := update_version_combos version_list a in
  version_var (ui (core a')) = "" ∧
  launch_minecraft env (core a') = (core a', NoVersion).
Proof.
  intros Hstale a'.
  destruct (update_version_combos_selection version_list a)
    as (_ & _ & _ & _ & [Hv|[_ Hin]]); [|done].
  fold a' in Hv. split; [exact Hv|].
  unfold launch_minecraft, validate. rewrite Hv. reflexivity.
Qed.

Lemma stale_selection_cleared_witness :
  let a := update_version_combos ["1.19.4"] (app_of (Sample.launcher "" "")) in
  version_var (ui (core (app_of (Sample.launcher "" "")))) = "1.20.1" ∧
  version_var (ui (core a)) = "".
Proof.
  cbv zeta. split; [reflexivity|].
  refine (proj1 (stale_selection_cleared (Sample.good_world ∅)
                   (app_of (Sample.launcher "" "")) ["1.19.4"] _)).
  rewrite <- py_in_spec. by vm_compute.
Defined.

(** ** Profiles *)

Lemma load_profiles_list_after_save l a :
  load_profiles_list (set_core (save_settings l) a) =
  Some (set_profiles_listbox [] (set_core (save_settings l) a)).
Proof.
  unfold load_profiles_list.
  change (settings (core (set_core (save_settings l) a)))
    with (settings_document l).
  by rewrite settings_document_unsaved.
Qed.

(** Without a [profiles] key every selection is "Profile not found". *)
Lemma load_profile_without_profiles a i :
  settings (core a) !! "profiles" = None →
  load_profile (Some i) a = (a, Box "Error").
Proof. intros H. unfold load_profile. by rewrite H. Qed.

(** Loading a profile sets the widgets and forgets the profiles.  When
    [load_profile] reports "Profile Loaded", the version, mod loader, memory
    and username widgets show the profile's values (its defaults where the
    profile has none), while the attributes are as before and are what the
    save writes; the settings dictionary and the settings file are the
    fourteen-key document, without [profiles] and without
    [current_profile]; and selecting any profile again, the same one
    included, ends in "Profile not found". *)
Theorem load_profile_forgets_profiles (a a' : App) (i : nat) :
  load_profile (Some i) a = (a', Box "Profile Loaded") →
  let name := default "" (profiles_listbox a !! i) in
  (∃ profiles profile,
     settings (core a) !! "profiles" = Some (JObj profiles) ∧
     Dict.get name profiles = Some (JObj profile) ∧
     JStr (version_var (ui (core a'))) =
       default (JStr "") (Dict.get "version" profile) ∧
     JStr (mod_loader_var (ui (core a'))) =
       default (JStr "vanilla") (Dict.get "mod_loader" profile) ∧
     JInt (ram_var (ui (core a'))) =
       default (JInt 4096) (Dict.get "ram" profile) ∧
     JStr (username_var (ui (core a'))) =
       default (JStr (username_var (ui (core a))))
         (Dict.get "username" profile)) ∧
  current_profile a' = JStr name ∧
  prefs (core a') = prefs (core a) ∧
  settings (core a') = settings_document (core a) ∧
  load_settings (disk (core a')) = settings_document (core a) ∧
  settings (core a') !! "profiles" = None ∧
  settings (core a') !! "current_profile" = None ∧
  profiles_listbox a' = profiles_listbox a ∧
  (∀ j, load_profile (Some j) a' = (a', Box "Error")).
Proof.
  intros H name. unfold load_profile in H. fold name in H.
  destruct (settings (core a) !! "profiles") as [[| | | | |profiles]|] eqn:Hp;
    cbn [default from_option id] in H; try done.
  destruct (Dict.get name profiles) as [[| | | | |profile]|] eqn:Hg; try done.
  destruct (default (JStr "") (Dict.get "version" profile))
    as [| | |version| |] eqn:Hv; try done.
  destruct (default (JStr "vanilla") (Dict.get "mod_loader" profile))
    as [| | |mod_loader| |] eqn:Hm; try done.
  destruct (default (JInt 4096) (Dict.get "ram" profile))
    as [| |ram| | |] eqn:Hr; try done.
  destruct (default (JStr "") (Dict.get "username" profile))
    as [| | |user| |] eqn:Hu; try done.
  match type of H with (set_core (save_settings ?l0) ?a0, _) = _ =>
    set (l := l0) in H; set (a1 := a0) in H end.
  assert (Ha : a' = set_core (save_settings l) a1) by congruence.
  clear H.
  assert (Hs : settings (core a') = settings_document l) by (by rewrite Ha).
  assert (Hdoc : settings_document l = settings_document (core a)).
  { by apply settings_document_ext. }
  assert (Hnone : settings (core a') !! "profiles" = None).
  { rewrite Hs. by apply settings_document_unsaved. }
  assert (Hui : ui (core a') =
    let w := with_ram_var ram (with_mod_loader_var mod_loader
               (with_version_var version (ui (core a)))) in
    match Dict.get "username" profile with
    | Some _ => with_username_var user w
    | None => w
    end) by (by rewrite Ha).
  split.
  { exists profiles, profile. split; [done|]. split; [done|].
    rewrite Hui, Hv, Hm, Hr. cbv zeta.
    destruct (Dict.get "username" profile) as [u|] eqn:Hun;
      cbn [default from_option id] in Hu |- *; by rewrite ?Hu. }
  split; [by rewrite Ha|]. split; [by rewrite Ha|].
  split; [by rewrite Hs|].
  split.
  { rewrite Ha. cbn [set_core core]. rewrite load_settings_save_settings. done. }
  split; [done|].
  split; [rewrite Hs; by apply settings_document_unsaved|].
  split; [by rewrite Ha|].
  intros j. by apply load_profile_without_profiles.
Qed.

Lemma load_profile_forgets_profiles_witness :
  ∃ a',
    load_profile (Some 0%nat)
      (app_with_profiles [("builder", sample_profile)] (Sample.launcher "" ""))
      = (a', Box "Profile Loaded") ∧
    version_var (ui (core a')) = "1.19.4" ∧
    selected_version (prefs (core a')) = JStr "" ∧
    load_profile (Some 0%nat) a' = (a', Box "Error").
Proof.
  assert (H : ∃ a',
    load_profile (Some 0%nat)
      (app_with_profiles [("builder", sample_profile)] (Sample.launcher "" ""))
      = (a', Box "Profile Loaded")).
  { eexists. vm_compute. reflexivity. }
  destruct H as (a' & H).
  destruct (load_profile_forgets_profiles _ _ _ H)
    as ((profiles & profile & Hp & Hg & Hv & _) & _ & Hprefs & _ & _ & _ & _ & _
        & Hagain).
  exists a'. split; [exact H|].
  vm_compute in Hp. injection Hp as <-.
  vm_compute in Hg. injection Hg as <-.
  vm_compute in Hv. injection Hv as Hv.
  split; [exact Hv|]. split; [by rewrite Hprefs|]. apply Hagain.
Defined.

(** A profile that is created is not kept.  When the name is not blank and
    the dialog is not cancelled at the "Overwrite" question, [save_profile]
    ends with an empty profile list and with no [profiles] key in the
    settings dictionary or in the settings file, so the profile cannot be
    loaded; the profiles that were there are gone as well. *)
Theorem save_profile_forgets (a : App) (name_field version_field : string)
    (ram_field : Z) (loader_field : string) (overwrite : bool)
    (created : string) (profiles : list (string * Json)) :
  PyStr.strip name_field ≠ "" →
  default (JObj []) (settings (core a) !! "profiles") = JObj profiles →
  Dict.get (PyStr.strip name_field) profiles = None ∨ overwrite = true →
  ∃ a',
    save_profile name_field version_field ram_field loader_field overwrite
      created a = (a', Silent) ∧
    profiles_listbox a' = [] ∧
    settings (core a') !! "profiles" = None ∧
    load_settings (disk (core a')) !! "profiles" = None ∧
    prefs (core a') = prefs (core a) ∧
    ui (core a') = ui (core a) ∧
    (∀ i, load_profile (Some i) a' = (a', Box "Error")).
Proof.
  intros Hname Hp Hfree.
  assert (Hblank : negb (PyStr.nonempty (PyStr.strip name_field)) = false).
  { destruct (PyStr.strip name_field); done. }
  assert (Hgo : match Dict.get (PyStr.strip name_field) profiles with
                | Some _ => negb overwrite
                | None => false
                end = false).
  { destruct Hfree as [->| ->]; [done|]. by destruct (Dict.get _ _). }
  unfold save_profile. rewrite Hblank, Hp, Hgo.
  rewrite load_profiles_list_after_save.
  eexists. split; [reflexivity|].
  match goal with |- context [save_settings ?l0] => set (l := l0) end.
  assert (Hnone : settings_document l !! "profiles" = None)
    by (by apply settings_document_unsaved).
  split; [reflexivity|]. split; [exact Hnone|].
  split.
  { cbn [set_profiles_listbox set_core core].
    by rewrite load_settings_save_settings. }
  split; [reflexivity|]. split; [reflexivity|].
  intros i. by apply load_profile_without_profiles.
Qed.

Lemma save_profile_forgets_witness :
  ∃ a',
    save_profile " builder " "1.19.4" 2048 "vanilla" false
      "2024-01-01T10:00:00" (app_of (Sample.launcher "" "")) = (a', Silent) ∧
    profiles_listbox a' = [] ∧
    settings (core a') !! "profiles" = None.
Proof.
  destruct (save_profile_forgets (app_of (Sample.launcher "" ""))
              " builder " "1.19.4" 2048 "vanilla" false "2024-01-01T10:00:00"
              []) as (a' & H & Hl & Hs & _).
  - by vm_compute.
  - reflexivity.
  - by left.
  - by exists a'.
Defined.

(** Deleting one profile deletes them all.  When the selected name is among
    the profiles and the question is answered with yes, [delete_profile]
    ends with an empty profile list and with no [profiles] key in the
    settings dictionary or in the settings file. *)
Theorem delete_profile_deletes_all (a : App) (i : nat) (name : string)
    (profiles : list (string * Json)) (profile : Json) :
  profiles_listbox a !! i = Some name →
  settings (core a) !! "profiles" = Some (JObj profiles) →
  Dict.get name profiles = Some profile →
  ∃ a',
    delete_profile (Some i) true a = (a', Silent) ∧
    profiles_listbox a' = [] ∧
    settings (core a') !! "profiles" = None ∧
    load_settings (disk (core a')) !! "profiles" = None.
Proof.
  intros Hi Hp Hg.
  unfold delete_profile. rewrite Hi, Hp. cbn [default from_option id].
  rewrite Hg, load_profiles_list_after_save.
  eexists. split; [reflexivity|].
  match goal with |- context [save_settings ?l0] => set (l := l0) end.
  assert (Hnone : settings_document l !! "profiles" = None)
    by (by apply settings_document_unsaved).
  split; [reflexivity|]. split; [exact Hnone|].
  cbn [set_profiles_listbox set_core core].
  by rewrite load_settings_save_settings.
Qed.

Lemma delete_profile_deletes_all_witness :
  ∃ a',
    delete_profile (Some 0%nat) true
      (app_with_profiles [("builder", sample_profile); ("redstone", sample_profile)]
         (Sample.launcher "" "")) = (a', Silent) ∧
    profiles_listbox a' = [].
Proof.
  destruct (delete_profile_deletes_all
              (app_with_profiles
                 [("builder", sample_profile); ("redstone", sample_profile)]
                 (Sample.launcher "" ""))
              0 "builder"
              [("builder", sample_profile); ("redstone", sample_profile)]
              sample_profile) as (a' & H & Hl & _).
  - by vm_compute.
  - by vm_compute.
  - reflexivity.
  - by exists a'.
Defined.

(** ** What start-up reads *)

#[local] Instance string_le_total : Total string_le.
Proof. intros x y. unfold string_le. apply String.leb_total. Qed.

(** Start-up shows what the settings file holds and writes nothing.  When
    [__init__] completes, the saved-servers list box holds the file's
    [saved_servers] in their order, the profile list the names of the file's
    [profiles] in ascending order, the favourites and the recent versions are
    the file's lists (the recent versions at their full length), every key of
    the file is in the settings dictionary with its value, [statistics] is
    the file's or else the zero default, and the disk is untouched. *)
Theorem init_reads (env : Env) (cat : Catalogue)
    (files : gmap string (gmap string Json)) (a : App) :
  init env cat files = Some a →
  let loaded := load_settings files in
  get_strings "saved_servers" loaded = Some (saved_servers_listbox a) ∧
  Sorted string_le (profiles_listbox a) ∧
  (∃ profiles,
     default (JObj []) (loaded !! "profiles") = JObj profiles ∧
     profiles_listbox a ≡ₚ profiles.*1) ∧
  (∃ favorites,
     get_strings "favorite_versions" loaded = Some favorites ∧
     favorite_versions (core a) = list_to_set favorites) ∧
  get_strings "recent_versions" loaded = Some (recent_versions (core a)) ∧
  (∀ key, key ≠ "statistics" → settings (core a) !! key = loaded !! key) ∧
  settings (core a) !! "statistics" =
    Some (default default_statistics (loaded !! "statistics")) ∧
  disk (core a) = files.
Proof.
  intros H loaded. unfold init in H. fold loaded in H. cbv zeta in H.
  repeat (apply bind_Some in H as (? & ? & H)).
  match type of H with load_profiles_list ?a1 = _ => set (a2 := a1) in * end.
  match goal with Hl : load_saved_servers ?a0 = Some _ |- _ =>
    set (a1 := a0) in *; rename Hl into Hservers end.
  unfold load_saved_servers in Hservers.
  destruct (get_strings "saved_servers" (settings (core a1))) as [servers|] eqn:Hs;
    [|done].
  injection Hservers as <-.
  assert (Hset : ∀ key, key ≠ "statistics" →
            settings (core a1) !! key = loaded !! key).
  { intros key Hkey. subst a1. cbn [core settings].
    destruct (loaded !! "statistics"); [done|]. by rewrite lookup_insert_ne. }
  assert (Hstat : settings (core a1) !! "statistics" =
            Some (default default_statistics (loaded !! "statistics"))).
  { subst a1. cbn [core settings].
    destruct (loaded !! "statistics") eqn:E; [done|]. by rewrite lookup_insert_eq. }
  assert (Hs' : get_strings "saved_servers" loaded = Some servers).
  { unfold get_strings in Hs |- *. by rewrite Hset in Hs. }
  unfold load_profiles_list in H.
  change (settings (core (set_saved_servers_listbox servers a1)))
    with (settings (core a1)) in H.
  rewrite Hset in H by done.
  assert (Hlist : ∃ profiles,
            default (JObj []) (loaded !! "profiles") = JObj profiles ∧
            a = set_profiles_listbox (py_sorted profiles.*1)
                  (set_saved_servers_listbox servers a1)).
  { destruct (loaded !! "profiles") as [[| | | | |profiles]|]; try done.
    - exists profiles. split; [done|]. congruence.
    - exists []. split; [done|]. injection H as <-. done. }
  destruct Hlist as (profiles & Hp & ->).
  cbn [set_profiles_listbox set_saved_servers_listbox saved_servers_listbox
       profiles_listbox core].
  split; [exact Hs'|].
  split; [apply (Sorted_merge_sort string_le)|].
  split; [exists profiles; split; [done|apply merge_sort_Permutation]|].
  split; [eexists; split; [eassumption|reflexivity]|].
  split; [assumption|].
  split; [exact Hset|]. split; [exact Hstat|]. reflexivity.
Qed.

Lemma init_reads_witness :
  ∃ a,
    init (Sample.good_world ∅) sample_catalogue sample_files = Some a ∧
    saved_servers_listbox a = ["mc.example.org:25565"] ∧
    Sorted string_le (profiles_listbox a) ∧
    disk (core a) = sample_files.
Proof.
  assert (H : ∃ a,
    init (Sample.good_world ∅) sample_catalogue sample_files = Some a).
  { eexists. vm_compute. reflexivity. }
  destruct H as (a & H).
  destruct (init_reads _ _ _ _ H) as (Hs & Hsorted & _ & _ & _ & _ & _ & Hd).
  exists a. split; [exact H|].
  assert (E : get_strings "saved_servers" (load_settings sample_files) =
              Some ["mc.example.org:25565"]) by (by vm_compute).
  cbv zeta in Hs. rewrite E in Hs. injection Hs as Hs.
  split; [by rewrite <- Hs|]. split; [exact Hsorted|exact Hd].
Defined.

(** On the sample file the profile list is in ascending order of the
    names, and the statistics tab counts the two directories. *)
Example init_sample :
  (λ a, (profiles_listbox a, stats_text_widget a !! 4%nat)) <$>
    init (Sample.good_world ∅) sample_catalogue sample_files =
  Some (["builder"; "redstone"], Some "Installed Versions: 2").
Proof. by vm_compute. Qed.

(** ** The playtime line *)

(** The statistics tab shows [t] seconds as whole hours and whole minutes:
    the text is ["{h}h {m}m"] with [m] between 0 and 59 and with
    [3600 h + 60 m] at most [t] and less than a minute below it, also for a
    negative [t], where the hours are negative. *)
Theorem playtime_text_parts (t : Z) :
  ∃ h m s,
    playtime_text t = PyStr.of_Z h +:+ "h " +:+ PyStr.of_Z m +:+ "m" ∧
    t = 3600 * h + 60 * m + s ∧
    0 ≤ m < 60 ∧ 0 ≤ s < 60.
Proof.
  exists (t `div` 3600), ((t `mod` 3600) `div` 60), ((t `mod` 3600) `mod` 60).
  split; [reflexivity|].
  pose proof (Z.div_mod t 3600 ltac:(lia)).
  pose proof (Z.div_mod (t `mod` 3600) 60 ltac:(lia)).
  pose proof (Z.mod_pos_bound t 3600 ltac:(lia)).
  pose proof (Z.mod_pos_bound (t `mod` 3600) 60 ltac:(lia)).
  assert (0 ≤ (t `mod` 3600) `div` 60 < 60).
  { split; [apply Z.div_pos; lia|apply Z.div_lt_upper_bound; lia]. }
  lia.
Qed.
